(** * Request instrumentation of the Flask CRUD service (flask-app/app.py)

    A shallow embedding of the [with_metrics] decorator, of the Prometheus
    metric families it updates and of the CRUD views it wraps, followed by
    the properties of the instrumentation layer.

    Conventions of the embedding:
    - Python [int] is [Z]; Python [float] seconds are exact rationals [Q]
      (no rounding), with the two infinities and NaN kept apart; a Python
      [str] is the string of its UTF-8 bytes;
    - the module globals ([items], the five metric families) and the wall
      clock read by [time.time()] form an explicit state;
    - the Flask request context ([request]) is read-only environment;
    - a computation either returns a value or raises an exception. *)

From Stdlib Require Import ZArith QArith Qpower String Ascii List Lia Lqa.
From Stdlib Require Import DecimalString DecimalZ.
From stdpp Require Import base option gmap strings.
Import ListNotations.

Set Warnings "-register-all".

Local Open Scope string_scope.
Local Open Scope Z_scope.

(** ** Exceptions *)

(** The part of Python's exception hierarchy the wrapper distinguishes:
    [werkzeug.exceptions.HTTPException] (with its [code] attribute, [None]
    on the base class), any other subclass of [Exception], and the
    exceptions that derive from [BaseException] only ([KeyboardInterrupt],
    [SystemExit], [GeneratorExit]), which [except Exception] lets through. *)
Inductive exn : Type :=
| HTTPException (code : option Z) (name : string)
| PyException (cls : string) (msg : string)
| PyBaseException (cls : string).

Definition isinstance_Exception (e : exn) : bool :=
  match e with
  | HTTPException _ _ | PyException _ _ => true
  | PyBaseException _ => false
  end.

Definition isinstance_HTTPException (e : exn) : bool :=
  match e with
  | HTTPException _ _ => true
  | _ => false
  end.

(** [getattr(e, 'code', None)]: only werkzeug's exceptions carry the
    attribute in this universe. *)
Definition getattr_code (e : exn) : option Z :=
  match e with
  | HTTPException c _ => c
  | _ => None
  end.

(** Truth value of an [int]-or-[None] object: [None] and [0] are falsy. *)
Definition truthy_code (c : option Z) : bool :=
  match c with
  | Some z => negb (z =? 0)
  | None => false
  end.

Inductive result (A : Type) : Type :=
| Return (a : A)
| Raise (e : exn).
Arguments Return {A} a.
Arguments Raise {A} e.

(** ** Python values returned by views *)

Inductive json : Type :=
| JNull
| JBool (b : bool)
| JNum (z : Z)
| JStr (s : string)
| JList (l : list json)
| JDict (kvs : list (string * json)).

(** Truth value, for [request.get_json() or {}]. *)
Definition truthy_json (j : json) : bool :=
  match j with
  | JNull => false
  | JBool b => b
  | JNum z => negb (z =? 0)
  | JStr s => negb (String.eqb s "")
  | JList l => match l with [] => false | _ => true end
  | JDict kvs => match kvs with [] => false | _ => true end
  end.

(** A [flask.Response]: the JSON document it carries and its
    [status_code]. *)
Record Response : Type := mkResponse {
  response_json : json;
  status_code : Z
}.

(** What a Flask view may hand back (flask.typing.ResponseReturnValue):
    [None], a status [int], a [str], a [dict] or [list] body, a
    [Response], or a tuple of those such as [(body, status)],
    [(body, headers)] and [(body, status, headers)]. *)
Inductive pyval : Type :=
| PyNone
| PyInt (z : Z)
| PyStr (s : string)
| PyDict (kvs : list (string * json))
| PyList (l : list json)
| PyResponse (r : Response)
| PyTuple (elts : list pyval).

(** [hasattr(v, 'status_code')] and the attribute's value. *)
Definition getattr_status_code (v : pyval) : option Z :=
  match v with
  | PyResponse r => Some (status_code r)
  | _ => None
  end.

(** [jsonify(x)]: a response with status 200. *)
Definition jsonify (j : json) : pyval := PyResponse (mkResponse j 200).

(** ** [str] and [int] on integers *)

(** [str(n)] for an [int]: decimal digits, a leading [-] when negative. *)
Definition py_str (z : Z) : string := NilZero.string_of_int (Z.to_int z).

(** [int(s)] on the decimal strings [str] produces; anything else is the
    [ValueError] of an invalid literal. *)
Definition py_int (s : string) : result Z :=
  match NilZero.int_of_string s with
  | Some d => Return (Z.of_int d)
  | None => Raise (PyException "ValueError" "invalid literal for int() with base 10")
  end.

(** ** [float] on strings *)

Inductive pyfloat : Type :=
| Finite (q : Q)
| Inf (negative : bool)
| NaN.

Definition is_digit (c : ascii) : bool :=
  let n := nat_of_ascii c in (48 <=? n)%nat && (n <=? 57)%nat.

Definition digit_value (c : ascii) : Z := Z.of_nat (nat_of_ascii c - 48).

(** The ASCII white space [float] strips from both ends of the literal
    (C's [Py_ISSPACE]): U+0009..U+000D and the space. *)
Definition is_space (c : ascii) : bool :=
  let n := nat_of_ascii c in
  ((9 <=? n)%nat && (n <=? 13)%nat) || (n =? 32)%nat.

Fixpoint lstrip (l : list ascii) : list ascii :=
  match l with
  | c :: l' => if is_space c then lstrip l' else l
  | [] => []
  end.

Definition strip (l : list ascii) : list ascii :=
  rev (lstrip (rev (lstrip l))).

(** Underscores are digit separators: each one must stand between two
    digits.  Returns the literal without them. *)
Fixpoint drop_underscores (prev : ascii) (l : list ascii) : option (list ascii) :=
  match l with
  | [] => if Ascii.eqb prev "_" then None else Some []
  | c :: l' =>
      if Ascii.eqb c "_" then
        if is_digit prev then drop_underscores c l' else None
      else if Ascii.eqb prev "_" && negb (is_digit c) then None
      else option_map (cons c) (drop_underscores c l')
  end.

Fixpoint span_digits (l : list ascii) : list ascii * list ascii :=
  match l with
  | c :: l' =>
      if is_digit c then let '(ds, rest) := span_digits l' in (c :: ds, rest)
      else ([], l)
  | [] => ([], [])
  end.

Definition digits_value (ds : list ascii) : Z :=
  fold_left (fun acc c => 10 * acc + digit_value c) ds 0.

Definition lower (c : ascii) : ascii :=
  let n := nat_of_ascii c in
  if (65 <=? n)%nat && (n <=? 90)%nat then ascii_of_nat (n + 32) else c.

(** An optional sign: [true] when negative. *)
Definition take_sign (l : list ascii) : bool * list ascii :=
  match l with
  | c :: l' =>
      if Ascii.eqb c "-" then (true, l')
      else if Ascii.eqb c "+" then (false, l')
      else (false, l)
  | [] => (false, [])
  end.

(** The exponent part: empty, or [e]/[E], an optional sign and at least
    one digit, up to the end of the literal. *)
Definition parse_exponent (l : list ascii) : option Z :=
  match l with
  | [] => Some 0
  | c :: l' =>
      if Ascii.eqb (lower c) "e" then
        let '(neg, l'') := take_sign l' in
        match span_digits l'' with
        | (d :: ds, []) =>
            let e := digits_value (d :: ds) in Some (if neg then - e else e)
        | _ => None
        end
      else None
  end.

(** Digits, an optional fraction, an optional exponent; at least one
    digit in the mantissa. *)
Definition parse_decimal (l : list ascii) : option Q :=
  let '(ip, rest) := span_digits l in
  let '(fp, rest') :=
    match rest with
    | c :: r => if Ascii.eqb c "." then span_digits r else ([], rest)
    | [] => ([], [])
    end in
  match (ip ++ fp)%list with
  | [] => None
  | m =>
      match parse_exponent rest' with
      | Some e =>
          Some (inject_Z (digits_value m)
                * Qpower 10 (e - Z.of_nat (List.length fp)))%Q
      | None => None
      end
  end.

(** A Python [str] is held as its UTF-8 bytes.  The code points the
    bytes spell; a byte sequence that is not UTF-8 reads as U+FFFD, as
    a decoded query string has it. *)
Definition REPLACEMENT : N := 65533.

Definition continuation (c : ascii) : option N :=
  let b := N_of_ascii c in
  if (128 <=? b)%N && (b <=? 191)%N then Some (b - 128)%N else None.

Fixpoint utf8_decode (l : list ascii) : list N :=
  match l with
  | [] => []
  | c1 :: l1 =>
      let b1 := N_of_ascii c1 in
      if (b1 <? 128)%N then b1 :: utf8_decode l1
      else if (194 <=? b1)%N && (b1 <=? 223)%N then
        match l1 with
        | c2 :: l2 =>
            match continuation c2 with
            | Some x2 => ((b1 - 192) * 64 + x2)%N :: utf8_decode l2
            | None => REPLACEMENT :: utf8_decode l1
            end
        | [] => [REPLACEMENT]
        end
      else if (224 <=? b1)%N && (b1 <=? 239)%N then
        match l1 with
        | c2 :: c3 :: l3 =>
            match continuation c2, continuation c3 with
            | Some x2, Some x3 =>
                let cp := ((b1 - 224) * 4096 + x2 * 64 + x3)%N in
                if (cp <? 2048)%N || ((55296 <=? cp)%N && (cp <=? 57343)%N)
                then REPLACEMENT :: utf8_decode l1
                else cp :: utf8_decode l3
            | _, _ => REPLACEMENT :: utf8_decode l1
            end
        | _ => REPLACEMENT :: utf8_decode l1
        end
      else if (240 <=? b1)%N && (b1 <=? 244)%N then
        match l1 with
        | c2 :: c3 :: c4 :: l4 =>
            match continuation c2, continuation c3, continuation c4 with
            | Some x2, Some x3, Some x4 =>
                let cp := ((b1 - 240) * 262144 + x2 * 4096 + x3 * 64 + x4)%N in
                if (cp <? 65536)%N || (1114111 <? cp)%N
                then REPLACEMENT :: utf8_decode l1
                else cp :: utf8_decode l4
            | _, _, _ => REPLACEMENT :: utf8_decode l1
            end
        | _ => REPLACEMENT :: utf8_decode l1
        end
      else REPLACEMENT :: utf8_decode l1
  end.

(** White space beyond ASCII ([Py_UNICODE_ISSPACE]): U+0085, U+00A0,
    U+1680, U+2000..U+200A, U+2028, U+2029, U+202F, U+205F, U+3000. *)
Definition is_unicode_space (cp : N) : bool :=
  ((cp =? 133) || (cp =? 160) || (cp =? 5760)
   || ((8192 <=? cp) && (cp <=? 8202))
   || (cp =? 8232) || (cp =? 8233) || (cp =? 8239) || (cp =? 8287)
   || (cp =? 12288))%N.

(** The digit zero of every script with decimal digits (Unicode 14.0,
    the table of CPython 3.11); the nine code points after each are its
    digits 1 to 9. *)
Definition DECIMAL_ZEROS : list N :=
  [48; 1632; 1776; 1984; 2406; 2534; 2662; 2790;
   2918; 3046; 3174; 3302; 3430; 3558; 3664; 3792;
   3872; 4160; 4240; 6112; 6160; 6470; 6608; 6784;
   6800; 6992; 7088; 7232; 7248; 42528; 43216; 43264;
   43472; 43504; 43600; 44016; 65296; 66720; 68912; 69734;
   69872; 69942; 70096; 70384; 70736; 70864; 71248; 71360;
   71472; 71904; 72016; 72784; 73040; 73120; 92768; 92864;
   93008; 120782; 120792; 120802; 120812; 120822; 123200; 123632;
   125264; 130032]%N.

(** [Py_UNICODE_TODECIMAL]: the value of a decimal digit of any script. *)
Definition to_decimal (cp : N) : option N :=
  match find (fun z => (z <=? cp) && (cp <=? z + 9))%N DECIMAL_ZEROS with
  | Some z => Some (cp - z)%N
  | None => None
  end.

(** What [float] does to a [str] first: ASCII is kept, any other white
    space becomes a space and any other decimal digit its ASCII digit; a
    character that is none of these cannot be part of a number. *)
Fixpoint to_ascii_literal (cps : list N) : option (list ascii) :=
  match cps with
  | [] => Some []
  | cp :: cps' =>
      let c :=
        if (cp <? 127)%N then Some (ascii_of_N cp)
        else if is_unicode_space cp then Some " "%char
        else option_map (fun d => ascii_of_N (48 + d)) (to_decimal cp) in
      match c, to_ascii_literal cps' with
      | Some c, Some l => Some (c :: l)
      | _, _ => None
      end
  end.

Definition value_error : exn :=
  PyException "ValueError" "could not convert string to float".

(** [float(s)] for a [str] argument. *)
Definition float (s : string) : result pyfloat :=
  match to_ascii_literal (utf8_decode (list_ascii_of_string s)) with
  | None => Raise value_error
  | Some literal =>
      match drop_underscores "000" (strip literal) with
      | None => Raise value_error
      | Some l =>
          let '(neg, body) := take_sign l in
          let word := string_of_list_ascii (map lower body) in
          if String.eqb word "inf" || String.eqb word "infinity"
          then Return (Inf neg)
          else if String.eqb word "nan" then Return NaN
          else
            match parse_decimal body with
            | Some q => Return (Finite (if neg then - q else q)%Q)
            | None => Raise value_error
            end
      end
  end.

(** ** Request context and module state *)

(** The Flask request as the wrapper and the views read it:
    [request.method], the query parameters [request.args] (a multi-dict, in
    arrival order) and what [request.get_json()] evaluates to. *)
Record request : Type := mkRequest {
  method : string;
  args : list (string * string);
  get_json : result json
}.

(** [request.args.get(key)]: the first value given for the key. *)
Fixpoint args_get (key : string) (l : list (string * string)) : option string :=
  match l with
  | [] => None
  | (k, v) :: l' => if String.eqb k key then Some v else args_get key l'
  end.

(** Truth value of [request.args.get(key)]: [None] and [''] are falsy. *)
Definition truthy_arg (v : option string) : bool :=
  match v with
  | Some s => negb (String.eqb s "")
  | None => false
  end.

(** An entry of the in-memory store: [{'id': ..., 'data': ...}]. *)
Record item : Type := mkItem {
  id : Z;
  data : json
}.

Definition item_json (it : item) : json :=
  JDict [("id", JNum (id it)); ("data", data it)].

(** What the views can touch: the store and the passing of time. *)
Record world : Type := mkWorld {
  items : list item;
  clock : Q
}.

(** One labelled child of a [Histogram]: the running sum and one
    counter per upper bound, the last one for [+Inf]. *)
Record histogram : Type := mkHistogram {
  h_sum : Q;
  h_buckets : list nat
}.

Abbreviation labels3 := (string * string * string)%type.
Abbreviation labels2 := (string * string)%type.

(** The five metric families, each a map from label values to a child. *)
Record metrics : Type := mkMetrics {
  HTTP_REQUESTS : gmap labels3 nat;
  HTTP_DURATION : gmap labels3 histogram;
  HTTP_ERRORS : gmap labels3 nat;
  HTTP_SLOW : gmap labels2 nat;
  LAST_DURATION : gmap labels2 histogram
}.

Record state : Type := mkState {
  globals : world;
  registry : metrics
}.

(** Threshold (seconds) above which a request is considered slow. *)
Definition SLOW_THRESHOLD : Q := 5.

Definition HTTP_DURATION_buckets : list Q :=
  [0.005; 0.01; 0.05; 0.1; 0.5; 1; 2; 5]%Q.

(** [prometheus_client]'s default buckets, used by [LAST_DURATION]. *)
Definition DEFAULT_BUCKETS : list Q :=
  [0.005; 0.01; 0.025; 0.05; 0.075; 0.1; 0.25; 0.5; 0.75; 1; 2.5; 5; 7.5; 10]%Q.

(** ** Counters and histograms *)

(** Value of a counter child; a child that was never touched reads 0. *)
Definition counter_value {L} `{Countable L} (m : gmap L nat) (k : L) : nat :=
  default 0%nat (m !! k).

(** [family.labels(...).inc()]. *)
Definition counter_inc {L} `{Countable L} (k : L) (m : gmap L nat) : gmap L nat :=
  <[k := S (counter_value m k)]> m.

Definition new_histogram (bounds : list Q) : histogram :=
  mkHistogram 0 (repeat 0%nat (S (List.length bounds))).

(** The first bucket whose bound is not below the amount takes the
    observation; the [+Inf] bucket takes what is left. *)
Fixpoint bump_bucket (bounds : list Q) (amount : Q) (bs : list nat) : list nat :=
  match bounds, bs with
  | b :: bounds', n :: bs' =>
      if Qle_bool amount b then S n :: bs'
      else n :: bump_bucket bounds' amount bs'
  | [], n :: bs' => S n :: bs'
  | _, [] => []
  end.

(** [family.labels(...).observe(amount)]. *)
Definition histogram_observe {L} `{Countable L} (bounds : list Q) (k : L)
    (amount : Q) (m : gmap L histogram) : gmap L histogram :=
  let h := default (new_histogram bounds) (m !! k) in
  <[k := mkHistogram (h_sum h + amount)%Q (bump_bucket bounds amount (h_buckets h))]> m.

(** ** The monad of handler code *)

(** A computation reads the request, threads the state and returns or
    raises. *)
Definition M (A : Type) : Type := request -> state -> result A * state.

#[export] Instance M_ret : MRet M := fun A a _ st => (Return a, st).

#[export] Instance M_bind : MBind M := fun A B k c req st =>
  match c req st with
  | (Return a, st') => k a req st'
  | (Raise e, st') => (Raise e, st')
  end.

Definition raise {A} (e : exn) : M A := fun _ st => (Raise e, st).

Definition pass : M unit := mret tt.

(** Lift a pure [Return]/[Raise] outcome. *)
Definition reflect {A} (r : result A) : M A := fun _ st => (r, st).

(** Run a block and look at the way it left. *)
Definition attempt {A} (body : M A) : M (result A) := fun req st =>
  let '(r, st') := body req st in (Return r, st').

(** [try: body  except Exception as e: handler e]. *)
Definition try_except_Exception {A} (body : M A) (handler : exn -> M A) : M A :=
  fun req st =>
    match body req st with
    | (Return a, st') => (Return a, st')
    | (Raise e, st') =>
        if isinstance_Exception e then handler e req st' else (Raise e, st')
    end.

Definition the_request : M request := fun req st => (Return req, st).

Definition get_registry : M metrics := fun _ st => (Return (registry st), st).

Definition modify_registry (f : metrics -> metrics) : M unit := fun _ st =>
  (Return tt, mkState (globals st) (f (registry st))).

(** ** [time] *)

(** [time.time()]. *)
Definition time_time : M Q := fun _ st => (Return (clock (globals st)), st).

(** Largest sleep [time.sleep] accepts: 2^63 - 1 nanoseconds. *)
Definition SLEEP_MAX : Q := 9223372036854775807 # 1000000000.

(** [time.sleep(secs)]: NaN and out-of-range values are refused, so are
    negative ones; otherwise that many seconds pass. *)
Definition time_sleep (secs : pyfloat) : M unit := fun _ st =>
  match secs with
  | NaN => (Raise (PyException "ValueError" "Invalid value NaN (not a number)"), st)
  | Inf _ => (Raise (PyException "OverflowError" "timestamp too large to convert to C _PyTime_t"), st)
  | Finite q =>
      if negb (Qle_bool (- SLEEP_MAX) q && Qle_bool q SLEEP_MAX) then
        (Raise (PyException "OverflowError" "timestamp too large to convert to C _PyTime_t"), st)
      else if negb (Qle_bool 0 q) then
        (Raise (PyException "ValueError" "sleep length must be non-negative"), st)
      else
        (Return tt,
         mkState (mkWorld (items (globals st)) (clock (globals st) + q)%Q)
                 (registry st))
  end.

(** ** [abort] *)

(** Status codes werkzeug has an exception class for. *)
Definition default_exceptions : list Z :=
  [400; 401; 403; 404; 405; 406; 408; 409; 410; 411; 412; 413; 414; 415; 416;
   417; 418; 422; 423; 424; 428; 429; 431; 451; 500; 501; 502; 503; 504; 505].

(** The exception [abort(code)] raises: the [HTTPException] subclass of
    that code, or a [LookupError] when there is none. *)
Definition abort_exception (code : Z) : exn :=
  if existsb (Z.eqb code) default_exceptions
  then HTTPException (Some code) (py_str code)
  else PyException "LookupError" "no exception for code".

Definition abort {A} (code : Z) : M A := raise (abort_exception code).

(** ** Updates of the metric families *)

Definition HTTP_REQUESTS_inc (k : labels3) : M unit :=
  modify_registry (fun m =>
    mkMetrics (counter_inc k (HTTP_REQUESTS m)) (HTTP_DURATION m)
              (HTTP_ERRORS m) (HTTP_SLOW m) (LAST_DURATION m)).

Definition HTTP_DURATION_observe (k : labels3) (amount : Q) : M unit :=
  modify_registry (fun m =>
    mkMetrics (HTTP_REQUESTS m)
              (histogram_observe HTTP_DURATION_buckets k amount (HTTP_DURATION m))
              (HTTP_ERRORS m) (HTTP_SLOW m) (LAST_DURATION m)).

Definition HTTP_ERRORS_inc (k : labels3) : M unit :=
  modify_registry (fun m =>
    mkMetrics (HTTP_REQUESTS m) (HTTP_DURATION m)
              (counter_inc k (HTTP_ERRORS m)) (HTTP_SLOW m) (LAST_DURATION m)).

Definition HTTP_SLOW_inc (k : labels2) : M unit :=
  modify_registry (fun m =>
    mkMetrics (HTTP_REQUESTS m) (HTTP_DURATION m)
              (HTTP_ERRORS m) (counter_inc k (HTTP_SLOW m)) (LAST_DURATION m)).

Definition LAST_DURATION_observe (k : labels2) (amount : Q) : M unit :=
  modify_registry (fun m =>
    mkMetrics (HTTP_REQUESTS m) (HTTP_DURATION m)
              (HTTP_ERRORS m) (HTTP_SLOW m)
              (histogram_observe DEFAULT_BUCKETS k amount (LAST_DURATION m))).

(** ** Views *)

(** A view function: it receives the URL arguments, reads the request,
    works on the store and takes its time. *)
Definition view (K : Type) : Type := K -> request -> world -> result pyval * world.

(** The call of [f] on the wrapper's own arguments. *)
Definition call {K} (f : view K) (kwargs : K) : M pyval := fun req st =>
  let '(r, w) := f kwargs req (globals st) in (r, mkState w (registry st)).

(** ** The wrapper installed by [with_metrics(route)] *)

(** The [?delay=SECONDS] control: [if delay: try: time.sleep(float(delay))
    except Exception: pass]. *)
Definition inject_delay : M unit :=
  req ← the_request;
  let delay := args_get "delay" (args req) in
  if truthy_arg delay then
    try_except_Exception
      (secs ← reflect (float (default "" delay)); time_sleep secs)
      (fun _ => pass)
  else pass.

(** The [?fail=1] control: [if request.args.get('fail'): abort(500)]. *)
Definition inject_failure : M unit :=
  req ← the_request;
  if truthy_arg (args_get "fail" (args req)) then abort 500 else pass.

(** The [try] body after the call: how a returned value sets [status]. *)
Definition status_of_response (status : Z) (response : pyval) : Z :=
  match response with
  | PyTuple (_ :: PyInt z :: _) => z
      (* isinstance(response, tuple) and len(response) > 1
         and isinstance(response[1], int) *)
  | _ =>
      match getattr_status_code response with
      | Some c => c                       (* hasattr(response, 'status_code') *)
      | None => status
      end
  end.

(** The [except Exception as e] clause: how a raised exception sets
    [status].  An exception the clause does not match leaves it alone. *)
Definition status_of_exception (status : Z) (e : exn) : Z :=
  if isinstance_Exception e then
    if isinstance_HTTPException e && truthy_code (getattr_code e)
    then default 500 (getattr_code e)     (* status = e.code *)
    else 500
  else status.

(** The value of [status] when the [finally] block is entered. *)
Definition resolve (status : Z) (outcome : result pyval) : Z :=
  match outcome with
  | Return response => status_of_response status response
  | Raise e => status_of_exception status e
  end.

(** The [finally] block. *)
Definition record (route : string) (start : Q) (status : Z) : M unit :=
  now ← time_time;
  let duration := (now - start)%Q in
  let code := py_str status in
  req ← the_request;
  HTTP_REQUESTS_inc (method req, route, code);;
  HTTP_DURATION_observe (method req, route, code) duration;;
  LAST_DURATION_observe (method req, route) duration;;
  n ← reflect (py_int code);
  (if 500 <=? n then HTTP_ERRORS_inc (method req, route, code) else pass);;
  (if Qle_bool SLOW_THRESHOLD duration
   then HTTP_SLOW_inc (method req, route) else pass).

Definition wrapped {K} (route : string) (f : view K) (kwargs : K) : M pyval :=
  inject_delay;;
  inject_failure;;
  start ← time_time;
  let status := 200 in
  outcome ← attempt (call f kwargs);      (* try: ... except Exception: ... *)
  let status := resolve status outcome in
  record route start status;;             (* finally: ... *)
  reflect outcome.                        (* return response / raise *)

Definition with_metrics {K} (route : string) (f : view K) : K -> M pyval :=
  wrapped route f.

(** ** The CRUD views *)

Definition list_items : view unit := fun _ _ w =>
  (Return (jsonify (JList (map item_json (items w)))), w).

Definition create_item : view unit := fun _ req w =>
  match get_json req with
  | Raise e => (Raise e, w)
  | Return j =>
      let data := if truthy_json j then j else JDict [] in
      let it := mkItem (Z.of_nat (List.length (items w)) + 1) data in
      (Return (PyTuple [jsonify (item_json it); PyInt 201]),
       mkWorld (items w ++ [it]) (clock w))
  end.

Definition get_item : view Z := fun item_id _ w =>
  match find (fun it => id it =? item_id) (items w) with
  | Some it => (Return (jsonify (item_json it)), w)
  | None => (Raise (abort_exception 404), w)
  end.

(** [it['data'] = data] on the first entry with that id. *)
Fixpoint set_data (item_id : Z) (data : json) (l : list item) : list item :=
  match l with
  | [] => []
  | it :: l' =>
      if id it =? item_id then mkItem (id it) data :: l'
      else it :: set_data item_id data l'
  end.

Definition update_item : view Z := fun item_id req w =>
  match get_json req with
  | Raise e => (Raise e, w)
  | Return j =>
      let data := if truthy_json j then j else JDict [] in
      match find (fun it => id it =? item_id) (items w) with
      | Some it =>
          (Return (jsonify (item_json (mkItem (id it) data))),
           mkWorld (set_data item_id data (items w)) (clock w))
      | None => (Raise (abort_exception 404), w)
      end
  end.

Definition delete_item : view Z := fun item_id _ w =>
  match find (fun it => id it =? item_id) (items w) with
  | Some _ =>
      (Return (PyTuple [PyStr ""; PyInt 204]),
       mkWorld (List.filter (fun x => negb (id x =? item_id)) (items w)) (clock w))
  | None => (Raise (abort_exception 404), w)
  end.

(** A view that spends [secs] more seconds than [f] does (a slow store,
    say): the clock has moved on when it comes back. *)
Definition taking {K} (secs : Q) (f : view K) : view K := fun kwargs req w =>
  let '(r, w') := f kwargs req w in (r, mkWorld (items w') (clock w' + secs)%Q).

(** The five routes as registered with [@with_metrics]. *)
Definition route_list_items := with_metrics "/items" list_items.
Definition route_create_item := with_metrics "/items" create_item.
Definition route_get_item := with_metrics "/items/<id>" get_item.
Definition route_update_item := with_metrics "/items/<id>" update_item.
Definition route_delete_item := with_metrics "/items/<id>" delete_item.

(** State of a freshly started process at time [t]. *)
Definition no_metrics : metrics := mkMetrics ∅ ∅ ∅ ∅ ∅.
Definition initial (t : Q) : state := mkState (mkWorld [] t) no_metrics.

(** ** Reading the registry, and requests used below *)

Definition requests_total (st : state) (k : labels3) : nat :=
  counter_value (HTTP_REQUESTS (registry st)) k.

Definition errors_total (st : state) (k : labels3) : nat :=
  counter_value (HTTP_ERRORS (registry st)) k.

Definition slow_total (st : state) (k : labels2) : nat :=
  counter_value (HTTP_SLOW (registry st)) k.

(** The request carries the forced-failure directive. *)
Definition forced_failure (req : request) : bool :=
  truthy_arg (args_get "fail" (args req)).

(** The state in which the wrapper reads [start]: after the delay
    control, when the request is not short-circuited. *)
Definition at_start (req : request) (st : state) : state :=
  snd (inject_delay req st).

(** The request with every [key=...] query parameter removed. *)
Definition without_arg (key : string) (req : request) : request :=
  mkRequest (method req)
            (List.filter (fun kv => negb (String.eqb (fst kv) key)) (args req))
            (get_json req).

(** Serving requests one after the other on the same route. *)
Fixpoint serve {K} (route : string) (f : view K) (rs : list (K * request))
    (st : state) : state :=
  match rs with
  | [] => st
  | (kwargs, req) :: rs' => serve route f rs' (snd (wrapped route f kwargs req st))
  end.

(** A [GET] with the given query string and no body. *)
Definition GET (query : list (string * string)) : request :=
  mkRequest "GET" query (Raise (abort_exception 415)).

(** Views that leave in one fixed way, whatever the request. *)
Definition returning (v : pyval) : view unit := fun _ _ w => (Return v, w).
Definition raising (e : exn) : view unit := fun _ _ w => (Raise e, w).

(** The Status Resolver's rule for returned values worded with a pair:
    the second element of a two-element tuple when it is an integer,
    else the status property when there is one, else 200. *)
Definition pair_rule (response : pyval) : Z :=
  match response with
  | PyTuple [_; PyInt z] => z
  | _ =>
      match getattr_status_code response with
      | Some c => c
      | None => 200
      end
  end.

(** The request counter moved by exactly one increment, the one of the
    series [(method, route, str(code))]. *)
Definition counted_under (req : request) (route : string) (code : Z)
    (st st' : state) : Prop :=
  HTTP_REQUESTS (registry st') =
  counter_inc (method req, route, py_str code) (HTTP_REQUESTS (registry st)).

(** What the view does with the request: how it leaves, and the seconds
    that pass meanwhile.  The view starts once the delay control is
    over. *)
Definition view_outcome {K} (f : view K) (kwargs : K) (req : request)
    (st : state) : result pyval :=
  fst (f kwargs req (globals (at_start req st))).

Definition elapsed {K} (f : view K) (kwargs : K) (req : request)
    (st : state) : Q :=
  (clock (snd (f kwargs req (globals (at_start req st))))
   - clock (globals (at_start req st)))%Q.

(** Every request of the list, at its turn, is a [method] request
    without the forced-failure directive that resolves to [code]. *)
Fixpoint all_resolve_to {K} (route : string) (f : view K) (method_ : string)
    (code : Z) (rs : list (K * request)) (st : state) : Prop :=
  match rs with
  | [] => True
  | (kwargs, req) :: rs' =>
      method req = method_ /\ forced_failure req = false /\
      resolve 200 (view_outcome f kwargs req st) = code /\
      all_resolve_to route f method_ code rs' (snd (wrapped route f kwargs req st))
  end.

(** ** The index page, the store and the histograms read back *)

(** [index], the one view registered without [with_metrics]. *)
Definition index : M pyval :=
  mret (jsonify (JDict [("message", JStr "Flask CRUD app with Prometheus metrics")])).

(** [request.get_json() or {}]. *)
Definition or_empty (j : json) : json := if truthy_json j then j else JDict [].

(** The store holds an entry with that id. *)
Definition has_id (item_id : Z) (l : list item) : bool :=
  existsb (fun it => id it =? item_id) l.

(** The ids of the store are 1, 2, ..., n in this order, as they are
    when entries were only ever appended by [create_item]. *)
Definition sequential (l : list item) : Prop :=
  map id l = map Z.of_nat (seq 1 (List.length l)).

(** Number of observations a histogram child holds (its [_count]
    sample): the sum of its bucket counters. *)
Definition observations (h : histogram) : nat := list_sum (h_buckets h).

Definition histogram_count {L} `{Countable L} (m : gmap L histogram) (k : L) : nat :=
  from_option observations 0%nat (m !! k).

Definition histogram_sum {L} `{Countable L} (m : gmap L histogram) (k : L) : Q :=
  from_option h_sum 0%Q (m !! k).

Definition duration_count (st : state) (k : labels3) : nat :=
  histogram_count (HTTP_DURATION (registry st)) k.

Definition last_count (st : state) (k : labels2) : nat :=
  histogram_count (LAST_DURATION (registry st)) k.

(** Every child of a histogram family has one counter per bound and one
    for [+Inf], as [labels()] creates them. *)
Definition buckets_match {L} `{Countable L} (bounds : list Q)
    (m : gmap L histogram) : Prop :=
  forall k h, m !! k = Some h -> List.length (h_buckets h) = S (List.length bounds).

Definition well_formed (st : state) : Prop :=
  buckets_match HTTP_DURATION_buckets (HTTP_DURATION (registry st)) /\
  buckets_match DEFAULT_BUCKETS (LAST_DURATION (registry st)).

(** The error counter of a series equals its request counter when the
    code is a server error, and is 0 otherwise. *)
Definition errors_follow_requests (st : state) : Prop :=
  forall m route c,
    errors_total st (m, route, py_str c) =
    if 500 <=? c then requests_total st (m, route, py_str c) else 0%nat.

(** Each duration child holds as many observations as its series counts
    requests. *)
Definition durations_follow_requests (st : state) : Prop :=
  forall k, duration_count st k = requests_total st k.

(** No pair [(method, route)] counts more slow requests than it has
    observations. *)
Definition slow_within_observed (st : state) : Prop :=
  forall k, (slow_total st k <= last_count st k)%nat.

(** Requests with a JSON body. *)
Definition POST (body : json) : request := mkRequest "POST" [] (Return body).
Definition PUT (body : json) : request := mkRequest "PUT" [] (Return body).
Definition DELETE : request := mkRequest "DELETE" [] (Return JNull).

(** The counter of bucket number [i] (from 0) of a child; a child not
    yet created reads 0 everywhere. *)
Definition bucket_count {L} `{Countable L} (m : gmap L histogram) (k : L)
    (i : nat) : nat :=
  from_option (fun h => nth i (h_buckets h) 0%nat) 0%nat (m !! k).

(** * Properties *)

(** ** [str] and [int] round trip *)

Lemma to_int_proper (z : Z) :
  Z.to_int z <> Decimal.Pos Decimal.Nil /\ Z.to_int z <> Decimal.Neg Decimal.Nil.
Proof.
  destruct z as [|p|p]; simpl; split; try discriminate;
    intros [= Hnil]; exact (DecimalPos.Unsigned.to_uint_nonnil p Hnil).
Qed.

Lemma py_int_py_str (z : Z) : py_int (py_str z) = Return z.
Proof.
  unfold py_int, py_str.
  destruct (to_int_proper z) as [Hp Hn].
  rewrite (NilZero.isi _ Hp Hn).
  now rewrite DecimalZ.of_to.
Qed.

Lemma py_str_inj (a b : Z) : py_str a = py_str b -> a = b.
Proof.
  intros Heq.
  assert (H : py_int (py_str a) = py_int (py_str b)) by now rewrite Heq.
  rewrite !py_int_py_str in H. congruence.
Qed.

(** ** Counters *)

Section Counters.
Context {L : Type} `{Countable L}.
Implicit Types (m : gmap L nat) (k : L).

Lemma counter_inc_same m k :
  counter_value (counter_inc k m) k = S (counter_value m k).
Proof. unfold counter_inc, counter_value at 1. now rewrite lookup_insert_eq. Qed.

Lemma counter_inc_other m k k' :
  k <> k' -> counter_value (counter_inc k m) k' = counter_value m k'.
Proof.
  intros Hne. unfold counter_inc, counter_value at 1.
  now rewrite lookup_insert_ne.
Qed.

Lemma counter_inc_value m k k' :
  counter_value (counter_inc k m) k' =
  (counter_value m k' + if decide (k = k') then 1 else 0)%nat.
Proof.
  destruct (decide (k = k')) as [<-|Hne].
  - rewrite counter_inc_same. lia.
  - rewrite counter_inc_other by assumption. lia.
Qed.

Lemma counter_inc_changes m k : counter_inc k m <> m.
Proof.
  intros Heq.
  assert (Hv : counter_value (counter_inc k m) k = counter_value m k)
    by now rewrite Heq.
  rewrite counter_inc_same in Hv. lia.
Qed.
End Counters.

(** A request is filed under one code only. *)
Lemma counted_under_unique (req : request) (route : string) (c c' : Z)
    (st st' : state) :
  counted_under req route c st st' -> counted_under req route c' st st' -> c = c'.
Proof.
  unfold counted_under. intros -> Heq.
  destruct (decide ((method req, route, py_str c) = (method req, route, py_str c')))
    as [Hk|Hk].
  - injection Hk as Hs. now apply py_str_inj.
  - exfalso.
    assert (Hv : counter_value
                   (counter_inc (method req, route, py_str c) (HTTP_REQUESTS (registry st)))
                   (method req, route, py_str c)
                 = counter_value
                     (counter_inc (method req, route, py_str c') (HTTP_REQUESTS (registry st)))
                     (method req, route, py_str c)) by now rewrite Heq.
    rewrite counter_inc_same in Hv.
    rewrite counter_inc_other in Hv by congruence. lia.
Qed.

(** ** The delay control *)

Ltac unfold_M :=
  unfold mbind, M_bind, mret, M_ret, pass, reflect, raise, attempt, call,
    the_request, time_time, modify_registry, try_except_Exception in *.

(** Whatever the query string holds, the delay control comes back
    normally; it moves the clock forward or does nothing at all. *)
Lemma inject_delay_cases (req : request) (st : state) :
  inject_delay req st = (Return tt, st) \/
  exists d q,
    args_get "delay" (args req) = Some d /\ d <> "" /\
    float d = Return (Finite q) /\ (0 <= q)%Q /\
    inject_delay req st =
      (Return tt,
       mkState (mkWorld (items (globals st)) (clock (globals st) + q)%Q)
               (registry st)).
Proof.
  unfold inject_delay. unfold_M.
  destruct (args_get "delay" (args req)) as [d|] eqn:Hget; simpl; [|now left].
  destruct (String.eqb_spec d "") as [->|Hne]; simpl; [now left|].
  destruct (float d) as [[q| |]|e] eqn:Hfloat; simpl.
  - unfold time_sleep.
    destruct (Qle_bool (- SLEEP_MAX) q && Qle_bool q SLEEP_MAX); simpl; [|now left].
    destruct (Qle_bool 0 q) eqn:Hq; simpl; [|now left].
    right. exists d, q. repeat split; try assumption.
    now apply Qle_bool_iff.
  - now left.
  - now left.
  - assert (He : e = value_error).
    { unfold float in Hfloat.
      destruct (to_ascii_literal _); [|congruence].
      destruct (drop_underscores _ _); [|congruence].
      destruct (take_sign _) as [neg body].
      destruct (_ || _); [discriminate|].
      destruct (String.eqb _ "nan"); [discriminate|].
      destruct (parse_decimal body); congruence. }
    subst e. now left.
Qed.

Lemma inject_delay_returns (req : request) (st : state) :
  inject_delay req st = (Return tt, at_start req st).
Proof.
  unfold at_start.
  destruct (inject_delay_cases req st) as [->|(d & q & _ & _ & _ & _ & ->)];
    reflexivity.
Qed.

Lemma at_start_registry (req : request) (st : state) :
  registry (at_start req st) = registry st.
Proof.
  unfold at_start.
  destruct (inject_delay_cases req st) as [->|(d & q & _ & _ & _ & _ & ->)];
    reflexivity.
Qed.

Lemma at_start_items (req : request) (st : state) :
  items (globals (at_start req st)) = items (globals st).
Proof.
  unfold at_start.
  destruct (inject_delay_cases req st) as [->|(d & q & _ & _ & _ & _ & ->)];
    reflexivity.
Qed.

(** ** The [finally] block *)

(** The block never raises: [int(str(status))] always parses. *)
Lemma record_eq (route : string) (start : Q) (status : Z) (req : request)
    (st : state) :
  let m := registry st in
  let duration := (clock (globals st) - start)%Q in
  let k := (method req, route, py_str status) in
  record route start status req st =
    (Return tt,
     mkState (globals st)
       (mkMetrics
          (counter_inc k (HTTP_REQUESTS m))
          (histogram_observe HTTP_DURATION_buckets k duration (HTTP_DURATION m))
          (if 500 <=? status then counter_inc k (HTTP_ERRORS m) else HTTP_ERRORS m)
          (if Qle_bool SLOW_THRESHOLD duration
           then counter_inc (method req, route) (HTTP_SLOW m) else HTTP_SLOW m)
          (histogram_observe DEFAULT_BUCKETS (method req, route) duration
             (LAST_DURATION m)))).
Proof.
  unfold record, HTTP_REQUESTS_inc, HTTP_DURATION_observe, LAST_DURATION_observe,
    HTTP_ERRORS_inc, HTTP_SLOW_inc.
  unfold_M. simpl. rewrite py_int_py_str.
  destruct (500 <=? status); simpl;
    destruct (Qle_bool SLOW_THRESHOLD (clock (globals st) - start)); reflexivity.
Qed.

(** ** The wrapper, path by path *)

Section Wrapped.
Context {K : Type}.
Variables (route : string) (f : view K) (kwargs : K).
Variables (req : request) (st : state).

(** The injected short circuit: [abort(500)] leaves the wrapper before
    [start] is read and before the [try] statement is entered. *)
Lemma wrapped_short_circuit :
  forced_failure req = true ->
  wrapped route f kwargs req st = (Raise (abort_exception 500), at_start req st).
Proof.
  unfold forced_failure. intros Hfail.
  unfold wrapped, mbind, M_bind. rewrite inject_delay_returns.
  unfold inject_failure, abort. unfold_M. now rewrite Hfail.
Qed.

(** Every other request: the view runs from the state the delay
    control left, and the [finally] block files the outcome. *)
Lemma wrapped_runs :
  forced_failure req = false ->
  wrapped route f kwargs req st =
    let st1 := at_start req st in
    let outcome := fst (f kwargs req (globals st1)) in
    let w := snd (f kwargs req (globals st1)) in
    (outcome,
     snd (record route (clock (globals st1)) (resolve 200 outcome) req
            (mkState w (registry st1)))).
Proof.
  unfold forced_failure. intros Hfail.
  unfold wrapped, mbind, M_bind. rewrite inject_delay_returns.
  unfold inject_failure. unfold_M. rewrite Hfail. simpl.
  destruct (f kwargs req (globals (at_start req st))) as [outcome w]. simpl.
  rewrite record_eq. simpl. reflexivity.
Qed.
End Wrapped.

Section Recording.
Context {K : Type}.
Variables (route : string) (f : view K) (kwargs : K).
Variables (req : request) (st : state).
Hypothesis not_forced : forced_failure req = false.

Let st' := snd (wrapped route f kwargs req st).
Let code := resolve 200 (view_outcome f kwargs req st).
Let k := (method req, route, py_str code).

Lemma wrapped_outcome :
  fst (wrapped route f kwargs req st) = view_outcome f kwargs req st.
Proof. now rewrite wrapped_runs. Qed.

Lemma wrapped_requests :
  HTTP_REQUESTS (registry st') = counter_inc k (HTTP_REQUESTS (registry st)).
Proof.
  unfold st'. rewrite wrapped_runs by assumption. cbv zeta.
  rewrite record_eq. simpl. now rewrite at_start_registry.
Qed.

Lemma wrapped_errors :
  HTTP_ERRORS (registry st') =
  if 500 <=? code then counter_inc k (HTTP_ERRORS (registry st))
  else HTTP_ERRORS (registry st).
Proof.
  unfold st'. rewrite wrapped_runs by assumption. cbv zeta.
  rewrite record_eq. simpl. now rewrite at_start_registry.
Qed.

Lemma wrapped_slow :
  HTTP_SLOW (registry st') =
  if Qle_bool SLOW_THRESHOLD (elapsed f kwargs req st)
  then counter_inc (method req, route) (HTTP_SLOW (registry st))
  else HTTP_SLOW (registry st).
Proof.
  unfold st'. rewrite wrapped_runs by assumption. cbv zeta.
  rewrite record_eq. simpl. now rewrite at_start_registry.
Qed.

Lemma wrapped_globals :
  globals st' = snd (f kwargs req (globals (at_start req st))).
Proof.
  unfold st'. rewrite wrapped_runs by assumption. cbv zeta.
  now rewrite record_eq.
Qed.
End Recording.

(** ** Exactly-once recording of the requests that reach the view *)

(** Whichever way the view leaves (a value, an HTTP error, any other
    exception, even one outside [Exception]), the request counter takes
    one increment: the series of the resolved code goes up by one and
    every other series keeps its value. *)
Lemma recorded_once {K} (route : string) (f : view K) (kwargs : K)
    (req : request) (st : state) (k' : labels3) :
  forced_failure req = false ->
  let st' := snd (wrapped route f kwargs req st) in
  let k := (method req, route, py_str (resolve 200 (view_outcome f kwargs req st))) in
  requests_total st' k' =
  (requests_total st k' + if decide (k = k') then 1 else 0)%nat.
Proof.
  intros Hnf st' k. unfold requests_total, st'.
  rewrite wrapped_requests by assumption. apply counter_inc_value.
Qed.

(** [N] requests that all resolve to the same code add [N] to its
    series. *)
Lemma serve_counts {K} (route : string) (f : view K) (m : string) (code : Z)
    (rs : list (K * request)) :
  forall st, all_resolve_to route f m code rs st ->
  requests_total (serve route f rs st) (m, route, py_str code) =
  (requests_total st (m, route, py_str code) + List.length rs)%nat.
Proof.
  induction rs as [|[kwargs req] rs IH]; intros st Hall; simpl.
  - lia.
  - destruct Hall as (Hm & Hnf & Hcode & Hrest).
    rewrite (IH _ Hrest).
    rewrite (recorded_once route f kwargs req st _ Hnf). cbv zeta.
    rewrite Hm, Hcode. rewrite decide_True by reflexivity. lia.
Qed.

(** With the forced-failure directive the view plays no part: any two
    views give the same run. *)
Lemma view_not_called {K} (route : string) (f g : view K) (kwargs : K)
    (req : request) (st : state) :
  forced_failure req = true ->
  wrapped route f kwargs req st = wrapped route g kwargs req st.
Proof. intros Hf. now rewrite !wrapped_short_circuit. Qed.

(** The sleep of the delay control lies before [start]: a view that
    itself takes no time is never slow, whatever [delay] asks for. *)
Lemma instant_view_never_slow {K} (route : string) (f : view K) (kwargs : K)
    (req : request) (st : state) :
  forced_failure req = false ->
  (forall w, clock (snd (f kwargs req w)) = clock w) ->
  HTTP_SLOW (registry (snd (wrapped route f kwargs req st)))
  = HTTP_SLOW (registry st).
Proof.
  intros Hnf Hinstant. rewrite wrapped_slow by assumption.
  unfold elapsed. rewrite Hinstant.
  destruct (Qle_bool SLOW_THRESHOLD _) eqn:Hle; [|reflexivity].
  apply Qle_bool_iff in Hle. unfold SLOW_THRESHOLD in Hle. exfalso. lra.
Qed.

(** Three plain [GET /items] on an empty store: code 200 each, the
    counter of [(GET, /items, 200)] reads 3 and no error is counted. *)
Example three_list_requests :
  let rs := [(tt, GET []); (tt, GET []); (tt, GET [])] in
  let st' := serve "/items" list_items rs (initial 0) in
  requests_total st' ("GET", "/items", "200") = 3%nat /\
  HTTP_ERRORS (registry st') = ∅.
Proof. vm_compute. split; reflexivity. Qed.

(** ** The claims *)

(** C1. The recording step is meant to run once on every exit path of
    the wrapper, the injected short circuit included.  On that path it
    does not run at all: a request with a truthy [fail] parameter leaves
    through [abort(500)] before the [try] statement, and the five metric
    families are exactly what they were, so the request counter takes no
    increment.  (The paths through the view are covered by
    [recorded_once] and [serve_counts].) *)
Theorem short_circuit_skips_recording {K} (route : string) (f : view K)
    (kwargs : K) (req : request) (st : state) :
  forced_failure req = true ->
  fst (wrapped route f kwargs req st) = Raise (abort_exception 500) /\
  registry (snd (wrapped route f kwargs req st)) = registry st.
Proof.
  intros Hf. rewrite wrapped_short_circuit by assumption. simpl.
  split; [reflexivity | apply at_start_registry].
Qed.

Lemma short_circuit_skips_recording_witness :
  forced_failure (GET [("fail", "1")]) = true /\
  fst (wrapped "/items" list_items tt (GET [("fail", "1")]) (initial 0))
    = Raise (abort_exception 500) /\
  registry (snd (wrapped "/items" list_items tt (GET [("fail", "1")]) (initial 0)))
    = registry (initial 0).
Proof.
  split; [reflexivity|].
  apply (short_circuit_skips_recording "/items" list_items tt
           (GET [("fail", "1")]) (initial 0)).
  reflexivity.
Defined.

(** C2. A request with the forced-failure directive is meant to be
    counted under code 500 by both the request counter and the error
    counter.  On a fresh process, [GET /items?fail=1] does end in the 500
    error without the view being called, but both counters for
    [(GET, /items, 500)] still read 0 afterwards. *)
Theorem forced_failure_scenario :
  let run := route_list_items tt (GET [("fail", "1")]) (initial 0) in
  fst run = Raise (HTTPException (Some 500) "500") /\
  globals (snd run) = globals (initial 0) /\
  requests_total (snd run) ("GET", "/items", "500") = 0%nat /\
  errors_total (snd run) ("GET", "/items", "500") = 0%nat.
Proof.
  cbv zeta. unfold route_list_items, with_metrics.
  rewrite wrapped_short_circuit by reflexivity.
  repeat split; reflexivity.
Qed.

(** C3. The injected delay is meant to be part of the measured time, so
    that [?delay=6.0] counts as a slow request.  The wrapper reads
    [start] after the sleep: on a fresh process [GET /items?delay=6.0]
    lets six seconds pass and still leaves the slow-request counter of
    [(GET, /items)] at 0, with 0 seconds observed; [?delay=4.0] leaves it
    at 0 as well. *)
Theorem delayed_request_scenario :
  let st6 := snd (route_list_items tt (GET [("delay", "6.0")]) (initial 0)) in
  let st4 := snd (route_list_items tt (GET [("delay", "4.0")]) (initial 0)) in
  (clock (globals st6) == 6)%Q /\
  slow_total st6 ("GET", "/items") = 0%nat /\
  match LAST_DURATION (registry st6) !! ("GET", "/items") with
  | Some h => (h_sum h == 0)%Q
  | None => False
  end /\
  slow_total st4 ("GET", "/items") = 0%nat.
Proof. vm_compute. repeat split; reflexivity. Qed.

(** C4.  When the view raises an error, that is an exception deriving
    from [Exception], the request is filed under the error's own code
    when it is an [HTTPException] that carries one (its [code] is set:
    neither [None] nor 0, the attribute being tested for truth), and under
    500 when it is any other error; [abort(404)] is filed under 404. *)
Theorem exception_status {K} (route : string) (f : view K) (kwargs : K)
    (req : request) (st : state) (e : exn) :
  forced_failure req = false ->
  view_outcome f kwargs req st = Raise e ->
  isinstance_Exception e = true ->
  let st' := snd (wrapped route f kwargs req st) in
  (forall c name, e = HTTPException (Some c) name -> c <> 0 ->
     counted_under req route c st st') /\
  ((forall c name, e = HTTPException (Some c) name -> c = 0) ->
     counted_under req route 500 st st') /\
  (e = abort_exception 404 -> counted_under req route 404 st st').
Proof.
  intros Hnf Hout Hexc st'. unfold counted_under, st'.
  rewrite wrapped_requests by assumption. rewrite Hout.
  repeat split.
  - intros c name -> Hc. simpl. unfold status_of_exception. simpl.
    destruct (Z.eqb_spec c 0); [contradiction | reflexivity].
  - intros Hzero. simpl. unfold status_of_exception. rewrite Hexc.
    destruct e as [[c|] name| |]; simpl; try reflexivity.
    rewrite (Hzero c name eq_refl). reflexivity.
  - intros ->. reflexivity.
Qed.

Lemma exception_status_witness :
  let req := GET [] in
  let e := abort_exception 404 in
  forced_failure req = false /\
  view_outcome get_item 7 req (initial 0) = Raise e /\
  counted_under req "/items/<id>" 404 (initial 0)
    (snd (wrapped "/items/<id>" get_item 7 req (initial 0))).
Proof.
  cbv zeta.
  assert (Hnf : forced_failure (GET []) = false) by reflexivity.
  assert (Hout : view_outcome get_item 7 (GET []) (initial 0)
                 = Raise (abort_exception 404)) by reflexivity.
  split; [exact Hnf|]. split; [exact Hout|].
  refine (proj1 (exception_status "/items/<id>" get_item 7 (GET []) (initial 0)
                   (abort_exception 404) Hnf Hout eq_refl) 404 "404" _ _).
  - reflexivity.
  - discriminate.
Defined.

(** C5, counterexample.  The rule worded with a pair files the triple
    [('', 204, {})] (body, status, headers) under the default 200; the
    wrapper files it under 204. *)
Lemma pair_rule_fails :
  let v := PyTuple [PyStr ""; PyInt 204; PyDict []] in
  let st' := snd (wrapped "/gone" (returning v) tt (GET []) (initial 0)) in
  py_str (pair_rule v) = "200" /\
  requests_total st' ("GET", "/gone", "200") = 0%nat /\
  requests_total st' ("GET", "/gone", "204") = 1%nat.
Proof. vm_compute. repeat split; reflexivity. Qed.

(** C5, amended.  For a value the view returns, the request is filed
    under the second element when the value is a tuple of two or more
    elements whose second element is an integer; otherwise under the
    value's [status_code] when it has one; otherwise under 200. *)
Theorem response_status {K} (route : string) (f : view K) (kwargs : K)
    (req : request) (st : state) (v : pyval) :
  forced_failure req = false ->
  view_outcome f kwargs req st = Return v ->
  let st' := snd (wrapped route f kwargs req st) in
  let int_second := exists x z rest, v = PyTuple (x :: PyInt z :: rest) in
  (forall x z rest, v = PyTuple (x :: PyInt z :: rest) ->
     counted_under req route z st st') /\
  (~ int_second -> forall c, getattr_status_code v = Some c ->
     counted_under req route c st st') /\
  (~ int_second -> getattr_status_code v = None ->
     counted_under req route 200 st st').
Proof.
  intros Hnf Hout st' int_second. unfold counted_under, st'.
  rewrite wrapped_requests by assumption. rewrite Hout. simpl.
  repeat split.
  - intros x z rest ->. reflexivity.
  - intros Hno c Hc.
    destruct v as [ | | | | | r | [|x [|[]]] ]; simpl in *;
      try discriminate.
    injection Hc as <-. reflexivity.
  - intros Hno Hc.
    destruct v as [ | | | | | r | [|x [|[]]] ]; simpl in *;
      try discriminate; try reflexivity.
    exfalso. apply Hno. unfold int_second. eauto.
Qed.

Lemma response_status_witness :
  let req := mkRequest "DELETE" [] (Return JNull) in
  let st := mkState (mkWorld [mkItem 1 JNull] 0) no_metrics in
  forced_failure req = false /\
  view_outcome delete_item 1 req st = Return (PyTuple [PyStr ""; PyInt 204]) /\
  counted_under req "/items/<id>" 204 st
    (snd (wrapped "/items/<id>" delete_item 1 req st)).
Proof.
  cbv zeta.
  set (req := mkRequest "DELETE" [] (Return JNull)).
  set (st := mkState (mkWorld [mkItem 1 JNull] 0) no_metrics).
  assert (Hnf : forced_failure req = false) by reflexivity.
  assert (Hout : view_outcome delete_item 1 req st
                 = Return (PyTuple [PyStr ""; PyInt 204])) by reflexivity.
  split; [exact Hnf|]. split; [exact Hout|].
  exact (proj1 (response_status "/items/<id>" delete_item 1 req st _ Hnf Hout)
           (PyStr "") 204 [] eq_refl).
Defined.

(** C6.  When the view raises, the wrapper raises that very exception,
    and when the view returns, the wrapper returns that very value; in
    both cases the request has been filed by then. *)
Theorem outcome_passed_through {K} (route : string) (f : view K) (kwargs : K)
    (req : request) (st : state) :
  forced_failure req = false ->
  let run := wrapped route f kwargs req st in
  (forall e, view_outcome f kwargs req st = Raise e -> fst run = Raise e) /\
  (forall v, view_outcome f kwargs req st = Return v -> fst run = Return v) /\
  counted_under req route (resolve 200 (view_outcome f kwargs req st)) st (snd run).
Proof.
  intros Hnf run. unfold run, counted_under.
  rewrite wrapped_outcome, wrapped_requests by assumption.
  repeat split; auto.
Qed.

Lemma outcome_passed_through_witness :
  let req := GET [("delay", "0.5")] in
  forced_failure req = false /\
  fst (wrapped "/items/<id>" get_item 3 req (initial 0))
    = Raise (abort_exception 404) /\
  fst (wrapped "/items" list_items tt req (initial 0))
    = Return (jsonify (JList [])).
Proof.
  cbv zeta.
  assert (Hnf : forced_failure (GET [("delay", "0.5")]) = false) by reflexivity.
  split; [exact Hnf|]. split.
  - apply (proj1 (outcome_passed_through "/items/<id>" get_item 3 _ (initial 0) Hnf)).
    reflexivity.
  - apply (proj1 (proj2 (outcome_passed_through "/items" list_items tt _
                           (initial 0) Hnf))).
    reflexivity.
Defined.

(** C7.  For a request that reaches the [finally] block, the
    slow-request counter of [(method, route)] goes up by one exactly when
    the measured time [time.time() - start] is at least [SLOW_THRESHOLD],
    five seconds, and keeps its value exactly when it is below. *)
Theorem slow_counter_threshold {K} (route : string) (f : view K) (kwargs : K)
    (req : request) (st : state) :
  forced_failure req = false ->
  let st' := snd (wrapped route f kwargs req st) in
  let k := (method req, route) in
  (SLOW_THRESHOLD == 5)%Q /\
  ((SLOW_THRESHOLD <= elapsed f kwargs req st)%Q <->
   slow_total st' k = S (slow_total st k)) /\
  ((elapsed f kwargs req st < SLOW_THRESHOLD)%Q <->
   slow_total st' k = slow_total st k) /\
  (forall k', k' <> k -> slow_total st' k' = slow_total st k').
Proof.
  intros Hnf st' k. unfold slow_total, st', k.
  rewrite wrapped_slow by assumption.
  split; [reflexivity|].
  destruct (Qle_bool SLOW_THRESHOLD (elapsed f kwargs req st)) eqn:Hle.
  - apply Qle_bool_iff in Hle. rewrite counter_inc_same.
    repeat split; intros; try lia; try assumption.
    + exfalso; apply (Qlt_not_le _ _ H Hle).
    + now apply counter_inc_other.
  - assert (Hlt : (elapsed f kwargs req st < SLOW_THRESHOLD)%Q).
    { apply Qnot_le_lt. intros Hle'. apply Qle_bool_iff in Hle'. congruence. }
    repeat split; intros; try lia; try assumption; try reflexivity.
    exfalso; apply (Qlt_not_le _ _ Hlt H).
Qed.

Lemma slow_counter_threshold_witness :
  let req := GET [] in
  let st' := snd (wrapped "/items" (taking 5 list_items) tt req (initial 0)) in
  forced_failure req = false /\
  slow_total st' ("GET", "/items") = S (slow_total (initial 0) ("GET", "/items")).
Proof.
  cbv zeta.
  assert (Hnf : forced_failure (GET []) = false) by reflexivity.
  split; [exact Hnf|].
  apply (proj1 (proj2 (slow_counter_threshold "/items" (taking 5 list_items) tt
                         (GET []) (initial 0) Hnf))).
  vm_compute. discriminate.
Defined.

Lemma find_absent (item_id : Z) (l : list item) :
  Forall (fun it => id it <> item_id) l ->
  find (fun it => id it =? item_id) l = None.
Proof.
  induction 1 as [|it l Hne _ IH]; simpl; [reflexivity|].
  destruct (Z.eqb_spec (id it) item_id); [contradiction | exact IH].
Qed.

(** C8.  For a request that reaches the [finally] block with resolved
    code [c], the request counter of [(method, route, c)] goes up by one;
    the error counter goes up exactly when [c >= 500], so a code between
    400 and 499 leaves the whole error family as it was.  In particular
    asking [get_item] for an id that is not in the store is filed under
    404 and touches no error counter. *)
Theorem error_counter_rule :
  (forall K route (f : view K) kwargs req st,
     forced_failure req = false ->
     let st' := snd (wrapped route f kwargs req st) in
     let c := resolve 200 (view_outcome f kwargs req st) in
     let k := (method req, route, py_str c) in
     requests_total st' k = S (requests_total st k) /\
     (400 <= c <= 499 -> HTTP_ERRORS (registry st') = HTTP_ERRORS (registry st)) /\
     (500 <= c <-> errors_total st' k = S (errors_total st k)) /\
     (500 <= c <-> HTTP_ERRORS (registry st') <> HTTP_ERRORS (registry st))) /\
  (forall item_id req st,
     forced_failure req = false ->
     Forall (fun it => id it <> item_id) (items (globals st)) ->
     let st' := snd (route_get_item item_id req st) in
     let k := (method req, "/items/<id>", "404") in
     fst (route_get_item item_id req st) = Raise (HTTPException (Some 404) "404") /\
     requests_total st' k = S (requests_total st k) /\
     HTTP_ERRORS (registry st') = HTTP_ERRORS (registry st)).
Proof.
  split.
  - intros K route f kwargs req st Hnf st' c k.
    unfold requests_total, errors_total, st'.
    rewrite wrapped_requests, wrapped_errors by assumption.
    fold c. fold k. rewrite counter_inc_same.
    split; [reflexivity|].
    destruct (Z.leb_spec 500 c) as [Hge|Hlt].
    + rewrite counter_inc_same.
      repeat split; intros; try lia.
      apply counter_inc_changes.
    + repeat split; intros; try lia; try reflexivity. congruence.
  - intros item_id req st Hnf Habsent st' k.
    assert (Hout : view_outcome get_item item_id req st
                   = Raise (HTTPException (Some 404) "404")).
    { unfold view_outcome, get_item. rewrite at_start_items.
      now rewrite (find_absent _ _ Habsent). }
    unfold requests_total, st', route_get_item, with_metrics.
    rewrite wrapped_outcome, wrapped_requests, wrapped_errors by assumption.
    rewrite Hout. simpl. fold k. rewrite counter_inc_same.
    repeat split; reflexivity.
Qed.

Lemma error_counter_rule_witness :
  let req := GET [] in
  forced_failure req = false /\
  Forall (fun it => id it <> 7) (items (globals (initial 0))) /\
  requests_total (snd (route_get_item 7 req (initial 0)))
    ("GET", "/items/<id>", "404") = 1%nat /\
  HTTP_ERRORS (registry (snd (route_get_item 7 req (initial 0)))) = ∅ /\
  errors_total (snd (wrapped "/boom" (raising (PyException "KeyError" "id")) tt
                       req (initial 0)))
    ("GET", "/boom", "500") = 1%nat.
Proof.
  cbv zeta.
  assert (Hnf : forced_failure (GET []) = false) by reflexivity.
  assert (Habs : Forall (fun it => id it <> 7) (items (globals (initial 0))))
    by constructor.
  split; [exact Hnf|]. split; [exact Habs|].
  destruct (proj2 error_counter_rule 7 (GET []) (initial 0) Hnf Habs)
    as (_ & Hreq & Herr).
  split; [exact Hreq|]. split; [exact Herr|].
  apply (proj1 (proj1 (proj2 (proj2 (proj1 error_counter_rule unit "/boom"
           (raising (PyException "KeyError" "id")) tt (GET []) (initial 0) Hnf))))).
  vm_compute. discriminate.
Defined.

Lemma args_get_without (key : string) (l : list (string * string)) :
  args_get key (List.filter (fun kv => negb (String.eqb (fst kv) key)) l) = None.
Proof.
  induction l as [|[k v] l IH]; simpl; [reflexivity|].
  destruct (String.eqb k key) eqn:Hk; simpl; [exact IH|].
  now rewrite Hk.
Qed.

Lemma inject_delay_absent (req : request) (st : state) :
  args_get "delay" (args req) = None ->
  inject_delay req st = (Return tt, st).
Proof.
  intros Hnone.
  destruct (inject_delay_cases req st) as [Heq|(d & q & Hget & _)];
    [exact Heq | congruence].
Qed.

(** What is left of the wrapper once the delay control has done
    nothing: the view runs on the state as it was, the outcome is passed
    on, and the request is filed under its resolved code. *)
Lemma wrapped_without_delay {K} (route : string) (f : view K) (kwargs : K)
    (req : request) (st : state) :
  inject_delay req st = (Return tt, st) ->
  forced_failure req = false ->
  let run := wrapped route f kwargs req st in
  fst run = fst (f kwargs req (globals st)) /\
  globals (snd run) = snd (f kwargs req (globals st)) /\
  counted_under req route (resolve 200 (fst (f kwargs req (globals st)))) st (snd run).
Proof.
  intros Hid Hnf run.
  assert (Hst : at_start req st = st) by (unfold at_start; now rewrite Hid).
  unfold run, counted_under.
  rewrite wrapped_outcome, wrapped_requests, wrapped_globals by assumption.
  unfold view_outcome. rewrite Hst. repeat split; reflexivity.
Qed.

(** C9.  When the [delay] parameter is absent, or [float] cannot parse
    it, the delay control comes back normally without touching the
    state, and the request goes on as usual: the view runs, its outcome
    is passed on, and the request is filed under its resolved code
    (unless [fail] short-circuits it, as it would any request). *)
Theorem unparsable_delay_ignored {K} (route : string) (f : view K) (kwargs : K)
    (req : request) (st : state) :
  (args_get "delay" (args req) = None \/
   exists d e, args_get "delay" (args req) = Some d /\ float d = Raise e) ->
  inject_delay req st = (Return tt, st) /\
  (forced_failure req = false ->
   let run := wrapped route f kwargs req st in
   fst run = fst (f kwargs req (globals st)) /\
   globals (snd run) = snd (f kwargs req (globals st)) /\
   counted_under req route (resolve 200 (fst (f kwargs req (globals st)))) st
     (snd run)) /\
  (forced_failure req = true ->
   wrapped route f kwargs req st = (Raise (abort_exception 500), st)).
Proof.
  intros Hdelay.
  assert (Hid : inject_delay req st = (Return tt, st)).
  { destruct Hdelay as [Hnone|(d & e & Hget & Hfloat)].
    - now apply inject_delay_absent.
    - destruct (inject_delay_cases req st)
        as [Heq|(d' & q & Hget' & _ & Hfloat' & _)]; [exact Heq|].
      congruence. }
  split; [exact Hid|]. split.
  - intros Hnf. now apply wrapped_without_delay.
  - intros Hf. rewrite wrapped_short_circuit by assumption.
    unfold at_start. now rewrite Hid.
Qed.

Lemma unparsable_delay_ignored_witness :
  let req := GET [("delay", "soon")] in
  (exists d e, args_get "delay" (args req) = Some d /\ float d = Raise e) /\
  inject_delay req (initial 0) = (Return tt, initial 0) /\
  fst (wrapped "/items" list_items tt req (initial 0))
    = Return (jsonify (JList [])).
Proof.
  cbv zeta.
  assert (Hbad : exists d e,
             args_get "delay" (args (GET [("delay", "soon")])) = Some d /\
             float d = Raise e)
    by (exists "soon", value_error; split; reflexivity).
  split; [exact Hbad|].
  destruct (unparsable_delay_ignored "/items" list_items tt
              (GET [("delay", "soon")]) (initial 0) (or_intror Hbad))
    as [Hid Hrun].
  split; [exact Hid|].
  exact (proj1 (proj1 Hrun eq_refl)).
Defined.

(** C10.  When the [delay] parameter parses to a negative number, the
    exception [time.sleep] raises stays inside the delay control, which
    comes back normally without touching the state, just as it does for
    a request without the parameter; the request then goes on as usual:
    the view runs, its outcome is passed on, and the request is filed
    under its resolved code (unless [fail] short-circuits it, as it would
    any request). *)
Theorem negative_delay_ignored {K} (route : string) (f : view K) (kwargs : K)
    (req : request) (st : state) (d : string) (q : Q) :
  args_get "delay" (args req) = Some d ->
  float d = Return (Finite q) ->
  (q < 0)%Q ->
  (exists e, time_sleep (Finite q) req st = (Raise e, st) /\
             isinstance_Exception e = true) /\
  inject_delay req st = (Return tt, st) /\
  inject_delay req st = inject_delay (without_arg "delay" req) st /\
  (forced_failure req = false ->
   let run := wrapped route f kwargs req st in
   fst run = fst (f kwargs req (globals st)) /\
   globals (snd run) = snd (f kwargs req (globals st)) /\
   counted_under req route (resolve 200 (fst (f kwargs req (globals st)))) st
     (snd run)) /\
  (forced_failure req = true ->
   wrapped route f kwargs req st = (Raise (abort_exception 500), st)).
Proof.
  intros Hget Hfloat Hneg.
  assert (Hid : inject_delay req st = (Return tt, st)).
  { destruct (inject_delay_cases req st)
      as [Heq|(d' & q' & Hget' & _ & Hfloat' & Hpos & _)]; [exact Heq|].
    assert (q' = q) by congruence. subst q'.
    exfalso. apply (Qlt_not_le _ _ Hneg Hpos). }
  split.
  { unfold time_sleep.
    destruct (Qle_bool (- SLEEP_MAX) q && Qle_bool q SLEEP_MAX); simpl;
      [|eexists; split; reflexivity].
    destruct (Qle_bool 0 q) eqn:Hq; simpl; [|eexists; split; reflexivity].
    apply Qle_bool_iff in Hq. exfalso. apply (Qlt_not_le _ _ Hneg Hq). }
  split; [exact Hid|]. split.
  - rewrite Hid. symmetry. apply inject_delay_absent.
    unfold without_arg. simpl. apply args_get_without.
  - split.
    + intros Hnf. now apply wrapped_without_delay.
    + intros Hf. rewrite wrapped_short_circuit by assumption.
      unfold at_start. now rewrite Hid.
Qed.

Lemma negative_delay_ignored_witness :
  let req := GET [("delay", "-2.5")] in
  args_get "delay" (args req) = Some "-2.5" /\
  float "-2.5" = Return (Finite (- (25 * (1 # 10)))) /\
  (- (25 * (1 # 10)) < 0)%Q /\
  inject_delay req (initial 0) = (Return tt, initial 0) /\
  fst (wrapped "/items" list_items tt req (initial 0))
    = Return (jsonify (JList [])).
Proof.
  cbv zeta.
  assert (Hget : args_get "delay" (args (GET [("delay", "-2.5")])) = Some "-2.5")
    by reflexivity.
  assert (Hfloat : float "-2.5" = Return (Finite (- (25 * (1 # 10)))))
    by (vm_compute; reflexivity).
  assert (Hneg : (- (25 * (1 # 10)) < 0)%Q) by reflexivity.
  split; [exact Hget|]. split; [exact Hfloat|]. split; [exact Hneg|].
  destruct (negative_delay_ignored "/items" list_items tt
              (GET [("delay", "-2.5")]) (initial 0) _ _ Hget Hfloat Hneg)
    as (_ & Hid & _ & Hrun & _).
  split; [exact Hid|].
  exact (proj1 (Hrun eq_refl)).
Defined.

(** * Further properties *)

(** ** The simulation controls *)




(** X2.  Any non-empty first value of [fail] forces the failure, ["0"]
    and ["false"] included, whatever the view is; an empty value, or no
    [fail] at all, does not, and the view's outcome comes out. *)
Theorem fail_is_tested_for_truth {K} (route : string) (f : view K) (kwargs : K)
    (req : request) (st : state) :
  (forall v, args_get "fail" (args req) = Some v -> v <> "" ->
     fst (wrapped route f kwargs req st) = Raise (abort_exception 500)) /\
  (args_get "fail" (args req) = Some "" \/ args_get "fail" (args req) = None ->
     fst (wrapped route f kwargs req st) = view_outcome f kwargs req st).
Proof.
  split.
  - intros v Hget Hne. rewrite wrapped_short_circuit; [reflexivity|].
    unfold forced_failure. rewrite Hget. simpl.
    destruct (String.eqb_spec v ""); [contradiction|reflexivity].
  - intros Hget. apply wrapped_outcome. unfold forced_failure.
    destruct Hget as [-> | ->]; reflexivity.
Qed.

Lemma fail_is_tested_for_truth_witness :
  fst (wrapped "/items" list_items tt (GET [("fail", "0")]) (initial 0))
    = Raise (abort_exception 500) /\
  fst (wrapped "/items" list_items tt (GET [("fail", "")]) (initial 0))
    = view_outcome list_items tt (GET [("fail", "")]) (initial 0).
Proof.
  split.
  - apply (proj1 (fail_is_tested_for_truth "/items" list_items tt
                    (GET [("fail", "0")]) (initial 0)) "0");
      [reflexivity | discriminate].
  - apply (proj2 (fail_is_tested_for_truth "/items" list_items tt
                    (GET [("fail", "")]) (initial 0))).
    left. reflexivity.
Defined.

(** ** What the wrapper leaves alone *)

(** X3.  The wrapper never touches the store: after a short-circuited
    request the store is what it was, and after any other request it is
    what the view left, the view having started on the store as it
    was. *)
Theorem wrapper_keeps_store {K} (route : string) (f : view K) (kwargs : K)
    (req : request) (st : state) :
  items (globals (at_start req st)) = items (globals st) /\
  (forced_failure req = true ->
   items (globals (snd (wrapped route f kwargs req st))) = items (globals st)) /\
  (forced_failure req = false ->
   items (globals (snd (wrapped route f kwargs req st))) =
   items (snd (f kwargs req (globals (at_start req st))))).
Proof.
  split; [apply at_start_items|]. split.
  - intros Hf. rewrite wrapped_short_circuit by assumption. apply at_start_items.
  - intros Hnf. now rewrite wrapped_globals.
Qed.

Lemma wrapper_keeps_store_witness :
  items (globals (snd (wrapped "/items" create_item tt
                         (mkRequest "POST" [("fail", "1")] (Return JNull))
                         (initial 0)))) = [].
Proof.
  apply (proj1 (proj2 (wrapper_keeps_store "/items" create_item tt
           (mkRequest "POST" [("fail", "1")] (Return JNull)) (initial 0)))).
  reflexivity.
Defined.

(** ** Histograms *)

Lemma bump_bucket_length (bounds : list Q) (amount : Q) :
  forall bs, List.length (bump_bucket bounds amount bs) = List.length bs.
Proof.
  induction bounds as [|b bounds IH]; intros [|n bs]; simpl; try reflexivity.
  destruct (Qle_bool amount b); simpl; [reflexivity | now rewrite IH].
Qed.

(** With one counter per bound and one more, exactly one counter takes
    the observation. *)
Lemma bump_bucket_sum (bounds : list Q) (amount : Q) :
  forall bs, List.length bs = S (List.length bounds) ->
  list_sum (bump_bucket bounds amount bs) = S (list_sum bs).
Proof.
  induction bounds as [|b bounds IH]; intros [|n bs] Hlen; simpl in *;
    try discriminate; try reflexivity.
  destruct (Qle_bool amount b); simpl; [reflexivity|].
  rewrite IH by lia. lia.
Qed.

Lemma new_histogram_observations (bounds : list Q) :
  observations (new_histogram bounds) = 0%nat.
Proof.
  unfold observations, new_histogram. simpl.
  induction (List.length bounds); simpl; auto.
Qed.

Lemma new_histogram_length (bounds : list Q) :
  List.length (h_buckets (new_histogram bounds)) = S (List.length bounds).
Proof. unfold new_histogram. simpl. now rewrite repeat_length. Qed.

Section Observe.
Context {L : Type} `{Countable L}.
Variables (bounds : list Q) (k : L) (amount : Q) (m : gmap L histogram).
Hypothesis Hm : buckets_match bounds m.

Lemma observed_child_length :
  List.length (h_buckets (default (new_histogram bounds) (m !! k)))
  = S (List.length bounds).
Proof.
  destruct (m !! k) as [h|] eqn:Hk; simpl.
  - exact (Hm k h Hk).
  - apply new_histogram_length.
Qed.

Lemma observe_buckets_match :
  buckets_match bounds (histogram_observe bounds k amount m).
Proof.
  intros k' h. unfold histogram_observe.
  destruct (decide (k = k')) as [<-|Hne].
  - rewrite lookup_insert_eq. intros [= <-]. simpl.
    rewrite bump_bucket_length. apply observed_child_length.
  - rewrite lookup_insert_ne by assumption. apply Hm.
Qed.

Lemma observe_count (k' : L) :
  histogram_count (histogram_observe bounds k amount m) k' =
  (histogram_count m k' + if decide (k = k') then 1 else 0)%nat.
Proof.
  unfold histogram_count, histogram_observe.
  destruct (decide (k = k')) as [<-|Hne].
  - rewrite lookup_insert_eq. cbn [from_option]. unfold observations at 1.
    cbn [h_buckets].
    rewrite bump_bucket_sum by apply observed_child_length.
    pose proof (new_histogram_observations bounds) as Hzero.
    unfold observations in *.
    destruct (m !! k) as [h|]; cbn [default from_option];
      unfold Datatypes.id; lia.
  - rewrite lookup_insert_ne by assumption. lia.
Qed.

Lemma observe_sum (k' : L) :
  (histogram_sum (histogram_observe bounds k amount m) k' ==
   histogram_sum m k' + if decide (k = k') then amount else 0)%Q.
Proof.
  unfold histogram_sum, histogram_observe.
  destruct (decide (k = k')) as [<-|Hne].
  - rewrite lookup_insert_eq. simpl. destruct (m !! k); simpl; lra.
  - rewrite lookup_insert_ne by assumption. lra.
Qed.
End Observe.

Section MoreRecording.
Context {K : Type}.
Variables (route : string) (f : view K) (kwargs : K).
Variables (req : request) (st : state).
Hypothesis not_forced : forced_failure req = false.

Lemma wrapped_duration :
  HTTP_DURATION (registry (snd (wrapped route f kwargs req st))) =
  histogram_observe HTTP_DURATION_buckets
    (method req, route, py_str (resolve 200 (view_outcome f kwargs req st)))
    (elapsed f kwargs req st) (HTTP_DURATION (registry st)).
Proof.
  rewrite wrapped_runs by assumption. cbv zeta.
  rewrite record_eq. simpl. now rewrite at_start_registry.
Qed.

Lemma wrapped_last :
  LAST_DURATION (registry (snd (wrapped route f kwargs req st))) =
  histogram_observe DEFAULT_BUCKETS (method req, route)
    (elapsed f kwargs req st) (LAST_DURATION (registry st)).
Proof.
  rewrite wrapped_runs by assumption. cbv zeta.
  rewrite record_eq. simpl. now rewrite at_start_registry.
Qed.
End MoreRecording.

Lemma wrapped_forced_registry {K} (route : string) (f : view K) (kwargs : K)
    (req : request) (st : state) :
  forced_failure req = true ->
  registry (snd (wrapped route f kwargs req st)) = registry st.
Proof.
  intros Hf. rewrite wrapped_short_circuit by assumption. apply at_start_registry.
Qed.

(** X4.  The wrapper keeps the layout of both histogram families: if
    every duration child has nine bucket counters (eight bounds and
    [+Inf]) and every last-duration child fifteen, this is still so after
    a request, the children it creates included. *)
Theorem bucket_layout_kept {K} (route : string) (f : view K) (kwargs : K)
    (req : request) (st : state) :
  well_formed st -> well_formed (snd (wrapped route f kwargs req st)).
Proof.
  intros [Hd Hl]. unfold well_formed.
  destruct (forced_failure req) eqn:Hf.
  - rewrite wrapped_forced_registry by assumption. now split.
  - rewrite wrapped_duration, wrapped_last by assumption.
    split; now apply observe_buckets_match.
Qed.

Lemma bucket_layout_kept_witness :
  well_formed (snd (wrapped "/items" list_items tt (GET []) (initial 0))).
Proof.
  apply bucket_layout_kept.
  split; intros k h Hk; simpl in Hk; now rewrite lookup_empty in Hk.
Defined.

(** ** Invariants of the registry *)

Lemma initial_well_formed (t : Q) : well_formed (initial t).
Proof. split; intros k h Hk; simpl in Hk; now rewrite lookup_empty in Hk. Qed.

Lemma initial_errors_follow (t : Q) : errors_follow_requests (initial t).
Proof.
  intros m route c. unfold errors_total, requests_total, counter_value. simpl.
  rewrite !lookup_empty. simpl. now destruct (500 <=? c).
Qed.

Lemma initial_durations_follow (t : Q) : durations_follow_requests (initial t).
Proof.
  intros k. unfold duration_count, histogram_count, requests_total, counter_value.
  simpl. now rewrite !lookup_empty.
Qed.

Lemma initial_slow_within (t : Q) : slow_within_observed (initial t).
Proof.
  intros k. unfold slow_total, last_count, histogram_count, counter_value.
  simpl. rewrite !lookup_empty. simpl. lia.
Qed.

(** X5.  No request ever lowers a counter: after the wrapper has run,
    on whatever request and view, every series of the request, error and
    slow-request counters reads at least what it read before. *)
Theorem counters_never_decrease {K} (route : string) (f : view K) (kwargs : K)
    (req : request) (st : state) :
  let st' := snd (wrapped route f kwargs req st) in
  (forall k, (requests_total st k <= requests_total st' k)%nat) /\
  (forall k, (errors_total st k <= errors_total st' k)%nat) /\
  (forall k, (slow_total st k <= slow_total st' k)%nat).
Proof.
  intros st'. unfold st', requests_total, errors_total, slow_total.
  destruct (forced_failure req) eqn:Hf.
  - rewrite wrapped_forced_registry by assumption. repeat split; intros; lia.
  - rewrite wrapped_requests, wrapped_errors, wrapped_slow by assumption.
    repeat split; intros k.
    + rewrite counter_inc_value. lia.
    + destruct (500 <=? _); [rewrite counter_inc_value|]; lia.
    + destruct (Qle_bool _ _); [rewrite counter_inc_value|]; lia.
Qed.

(** X6.  The wrapper keeps the error counter in step with the request
    counter: if, before a request, every series [(method, route, code)]
    has an error count equal to its request count when [code >= 500] and
    equal to 0 otherwise, the same holds after it. *)
Theorem errors_stay_in_step {K} (route : string) (f : view K) (kwargs : K)
    (req : request) (st : state) :
  errors_follow_requests st ->
  errors_follow_requests (snd (wrapped route f kwargs req st)).
Proof.
  intros Hinv m r c. specialize (Hinv m r c).
  unfold errors_total, requests_total in *.
  destruct (forced_failure req) eqn:Hf.
  - now rewrite wrapped_forced_registry by assumption.
  - rewrite wrapped_requests, wrapped_errors by assumption.
    set (c0 := resolve 200 (view_outcome f kwargs req st)).
    destruct (decide ((method req, route, py_str c0) = (m, r, py_str c)))
      as [Heq|Hne].
    + assert (c0 = c) by (injection Heq as _ _ Hs; now apply py_str_inj).
      subst c. rewrite <- Heq.
      destruct (500 <=? c0).
      * rewrite !counter_inc_same. rewrite Heq. now rewrite Hinv.
      * rewrite Heq. exact Hinv.
    + rewrite (counter_inc_other _ _ _ Hne).
      destruct (500 <=? c0); [rewrite (counter_inc_other _ _ _ Hne)|]; exact Hinv.
Qed.

Lemma errors_stay_in_step_witness :
  errors_follow_requests
    (snd (wrapped "/boom" (raising (PyException "KeyError" "id")) tt (GET [])
            (initial 0))).
Proof. apply errors_stay_in_step. apply initial_errors_follow. Defined.

(** X7.  Every request the wrapper counts it also observes: if each
    child of the duration histogram holds as many observations as its
    series counts requests, that is still so after the wrapper has run. *)
Theorem durations_stay_in_step {K} (route : string) (f : view K) (kwargs : K)
    (req : request) (st : state) :
  well_formed st ->
  durations_follow_requests st ->
  durations_follow_requests (snd (wrapped route f kwargs req st)).
Proof.
  intros [Hwf _] Hinv k. specialize (Hinv k).
  unfold duration_count, requests_total in *.
  destruct (forced_failure req) eqn:Hf.
  - now rewrite wrapped_forced_registry by assumption.
  - rewrite wrapped_requests, wrapped_duration by assumption.
    rewrite (observe_count _ _ _ _ Hwf), counter_inc_value. now rewrite Hinv.
Qed.

Lemma durations_stay_in_step_witness :
  durations_follow_requests
    (snd (wrapped "/items" list_items tt (GET []) (initial 0))).
Proof.
  apply durations_stay_in_step;
    [apply initial_well_formed | apply initial_durations_follow].
Defined.

(** X8.  A pair [(method, route)] never counts more slow requests than
    its last-duration histogram holds observations: the bound is kept by
    every run of the wrapper. *)
Theorem slow_stays_within_observed {K} (route : string) (f : view K)
    (kwargs : K) (req : request) (st : state) :
  well_formed st ->
  slow_within_observed st ->
  slow_within_observed (snd (wrapped route f kwargs req st)).
Proof.
  intros [_ Hwf] Hinv k. specialize (Hinv k).
  unfold slow_total, last_count in *.
  destruct (forced_failure req) eqn:Hf.
  - now rewrite wrapped_forced_registry by assumption.
  - rewrite wrapped_slow, wrapped_last by assumption.
    rewrite (observe_count _ _ _ _ Hwf).
    destruct (Qle_bool _ _); [rewrite counter_inc_value|]; lia.
Qed.

Lemma slow_stays_within_observed_witness :
  slow_within_observed
    (snd (wrapped "/items" (taking 7 list_items) tt (GET []) (initial 0))).
Proof.
  apply slow_stays_within_observed;
    [apply initial_well_formed | apply initial_slow_within].
Defined.

(** ** Where an observation lands *)

(** The observation goes to the first bucket whose bound is not below
    it: the one after all the bounds [pre] that are. *)
Lemma bump_bucket_index (pre post : list Q) (amount : Q) :
  Forall (fun b => (b < amount)%Q) pre ->
  match post with [] => True | b :: _ => (amount <= b)%Q end ->
  forall bs, List.length bs = S (List.length (pre ++ post)%list) ->
  nth (List.length pre) (bump_bucket (pre ++ post)%list amount bs) 0%nat
  = S (nth (List.length pre) bs 0%nat).
Proof.
  intros Hpre Hpost. induction Hpre as [|b pre Hb _ IH]; intros bs Hlen.
  - simpl in *. destruct bs as [|n bs]; [discriminate|].
    destruct post as [|b post]; simpl; [reflexivity|].
    apply Qle_bool_iff in Hpost. now rewrite Hpost.
  - destruct bs as [|n bs]; [discriminate|]. simpl in *.
    destruct (Qle_bool amount b) eqn:Hle.
    + apply Qle_bool_iff in Hle. exfalso. apply (Qlt_not_le _ _ Hb Hle).
    + simpl. apply IH. lia.
Qed.

Lemma observe_bucket {L} `{Countable L} (pre post : list Q) (k : L)
    (amount : Q) (m : gmap L histogram) :
  buckets_match (pre ++ post)%list m ->
  Forall (fun b => (b < amount)%Q) pre ->
  match post with [] => True | b :: _ => (amount <= b)%Q end ->
  bucket_count (histogram_observe (pre ++ post)%list k amount m) k (List.length pre)
  = S (bucket_count m k (List.length pre)).
Proof.
  intros Hm Hpre Hpost. unfold bucket_count, histogram_observe.
  rewrite lookup_insert_eq. cbn [from_option h_buckets].
  rewrite (bump_bucket_index pre post amount Hpre Hpost)
    by now apply observed_child_length.
  destruct (m !! k) as [h|]; cbn [default from_option]; unfold Datatypes.id;
    [reflexivity|].
  f_equal. unfold new_histogram. cbn [h_buckets].
  generalize (S (List.length (pre ++ post)%list)). generalize (List.length pre).
  intros i n. revert i. induction n as [|n IH]; intros [|i]; simpl; auto.
Qed.

(** X9.  The wrapper adds the measured time, [time.time() - start], to
    the sum of the duration child of [(method, route, code)] and to the
    sum of the last-duration child of [(method, route)], each of which
    gains one observation; the children of other label values keep
    theirs. *)
Theorem measured_time_observed {K} (route : string) (f : view K) (kwargs : K)
    (req : request) (st : state) :
  forced_failure req = false ->
  well_formed st ->
  let st' := snd (wrapped route f kwargs req st) in
  let k := (method req, route, py_str (resolve 200 (view_outcome f kwargs req st))) in
  let t := elapsed f kwargs req st in
  (histogram_sum (HTTP_DURATION (registry st')) k ==
   histogram_sum (HTTP_DURATION (registry st)) k + t)%Q /\
  (histogram_sum (LAST_DURATION (registry st')) (method req, route) ==
   histogram_sum (LAST_DURATION (registry st)) (method req, route) + t)%Q /\
  duration_count st' k = S (duration_count st k) /\
  last_count st' (method req, route) = S (last_count st (method req, route)) /\
  (forall k', k' <> k ->
     HTTP_DURATION (registry st') !! k' = HTTP_DURATION (registry st) !! k') /\
  (forall k', k' <> (method req, route) ->
     LAST_DURATION (registry st') !! k' = LAST_DURATION (registry st) !! k').
Proof.
  intros Hnf [Hd Hl] st' k t. unfold st', duration_count, last_count.
  rewrite wrapped_duration, wrapped_last by assumption. fold k. fold t.
  repeat split.
  - rewrite observe_sum. rewrite decide_True by reflexivity. reflexivity.
  - rewrite observe_sum. rewrite decide_True by reflexivity. reflexivity.
  - rewrite (observe_count _ _ _ _ Hd). rewrite decide_True by reflexivity. lia.
  - rewrite (observe_count _ _ _ _ Hl). rewrite decide_True by reflexivity. lia.
  - intros k' Hne. unfold histogram_observe. now rewrite lookup_insert_ne.
  - intros k' Hne. unfold histogram_observe. now rewrite lookup_insert_ne.
Qed.

Lemma measured_time_observed_witness :
  let st' := snd (wrapped "/items" (taking 0.25 list_items) tt (GET []) (initial 0)) in
  duration_count st' ("GET", "/items", "200") = 1%nat /\
  last_count st' ("GET", "/items") = 1%nat.
Proof.
  cbv zeta.
  destruct (measured_time_observed "/items" (taking 0.25 list_items) tt (GET [])
              (initial 0) eq_refl (initial_well_formed 0))
    as (_ & _ & Hd & Hl & _).
  split; [exact Hd | exact Hl].
Defined.

(** X10.  The slow threshold and the last bound of the duration
    histogram are both 5, but the first is tested with [>=] and the
    second with [<=]: a request of exactly five seconds is counted slow
    and lands in the [le=5] bucket, a longer one is counted slow and lands
    in the [+Inf] bucket. *)
Theorem five_seconds_edge {K} (route : string) (f : view K) (kwargs : K)
    (req : request) (st : state) :
  forced_failure req = false ->
  well_formed st ->
  let st' := snd (wrapped route f kwargs req st) in
  let k := (method req, route, py_str (resolve 200 (view_outcome f kwargs req st))) in
  let t := elapsed f kwargs req st in
  ((t == 5)%Q ->
     bucket_count (HTTP_DURATION (registry st')) k 7
       = S (bucket_count (HTTP_DURATION (registry st)) k 7) /\
     slow_total st' (method req, route) = S (slow_total st (method req, route))) /\
  ((5 < t)%Q ->
     bucket_count (HTTP_DURATION (registry st')) k 8
       = S (bucket_count (HTTP_DURATION (registry st)) k 8) /\
     slow_total st' (method req, route) = S (slow_total st (method req, route))).
Proof.
  intros Hnf [Hd _] st' k t. unfold st', slow_total.
  rewrite wrapped_duration, wrapped_slow by assumption. fold k. fold t.
  split; intros Ht.
  - split.
    + apply (observe_bucket [0.005; 0.01; 0.05; 0.1; 0.5; 1; 2]%Q [5%Q] k t _ Hd).
      * repeat constructor; lra.
      * lra.
    + assert (Hle : Qle_bool SLOW_THRESHOLD t = true)
        by (apply Qle_bool_iff; unfold SLOW_THRESHOLD; lra).
      rewrite Hle. apply counter_inc_same.
  - split.
    + apply (observe_bucket HTTP_DURATION_buckets [] k t).
      * now rewrite app_nil_r.
      * unfold HTTP_DURATION_buckets. repeat constructor; lra.
      * exact I.
    + assert (Hle : Qle_bool SLOW_THRESHOLD t = true)
        by (apply Qle_bool_iff; unfold SLOW_THRESHOLD; lra).
      rewrite Hle. apply counter_inc_same.
Qed.

Lemma five_seconds_edge_witness :
  let st' := snd (wrapped "/items" (taking 5 list_items) tt (GET []) (initial 0)) in
  bucket_count (HTTP_DURATION (registry st')) ("GET", "/items", "200") 7 = 1%nat /\
  slow_total st' ("GET", "/items") = 1%nat.
Proof.
  cbv zeta.
  refine (proj1 (five_seconds_edge "/items" (taking 5 list_items) tt (GET [])
                   (initial 0) eq_refl (initial_well_formed 0)) _).
  reflexivity.
Defined.

(** ** The store behind the routes *)

Ltac unfold_route :=
  unfold route_list_items, route_create_item, route_get_item,
    route_update_item, route_delete_item, with_metrics in *.

Lemma find_has_id (item_id : Z) (l : list item) :
  has_id item_id l = false <-> find (fun it => id it =? item_id) l = None.
Proof.
  unfold has_id. induction l as [|it l IH]; simpl; [tauto|].
  destruct (id it =? item_id); simpl; [split; discriminate | exact IH].
Qed.

Lemma find_has_id_true (item_id : Z) (l : list item) :
  has_id item_id l = true ->
  exists it, find (fun it => id it =? item_id) l = Some it /\ id it = item_id.
Proof.
  intros Hhas. destruct (find _ l) as [it|] eqn:Hfind.
  - exists it. split; [reflexivity|]. apply find_some in Hfind. lia.
  - apply find_has_id in Hfind. congruence.
Qed.

Lemma create_item_at_start (req : request) (st : state) (j : json) :
  get_json req = Return j ->
  create_item tt req (globals (at_start req st)) =
  (Return (PyTuple [jsonify (item_json
             (mkItem (Z.of_nat (List.length (items (globals st))) + 1) (or_empty j)));
           PyInt 201]),
   mkWorld (items (globals st)
            ++ [mkItem (Z.of_nat (List.length (items (globals st))) + 1) (or_empty j)])%list
           (clock (globals (at_start req st)))).
Proof.
  intros Hjson. unfold create_item. rewrite Hjson, at_start_items. reflexivity.
Qed.

(** X11.  [POST /items] with a readable body appends one entry to the
    store, after the entries that were there: its id is the former
    length plus one and its data the body, or [{}] when the body is falsy
    ([null], [0], [""], [[]], [{}], [false]).  The answer is that entry
    with status 201, filed under 201, and no error is counted. *)
Theorem create_appends (req : request) (st : state) (j : json) :
  forced_failure req = false ->
  get_json req = Return j ->
  let run := route_create_item tt req st in
  let it := mkItem (Z.of_nat (List.length (items (globals st))) + 1) (or_empty j) in
  fst run = Return (PyTuple [jsonify (item_json it); PyInt 201]) /\
  items (globals (snd run)) = (items (globals st) ++ [it])%list /\
  counted_under req "/items" 201 st (snd run) /\
  HTTP_ERRORS (registry (snd run)) = HTTP_ERRORS (registry st).
Proof.
  intros Hnf Hjson run it. unfold run, counted_under. unfold_route.
  pose proof (create_item_at_start req st j Hjson) as Hview.
  rewrite wrapped_outcome, wrapped_globals, wrapped_requests, wrapped_errors
    by assumption.
  unfold view_outcome. rewrite Hview. simpl. repeat split; reflexivity.
Qed.

Lemma create_appends_witness :
  items (globals (snd (route_create_item tt (POST (JNum 0)) (initial 0))))
  = [mkItem 1 (JDict [])].
Proof.
  exact (proj1 (proj2 (create_appends (POST (JNum 0)) (initial 0) (JNum 0)
                         eq_refl eq_refl))).
Defined.

(** X12.  When [request.get_json()] raises, [POST /items] and
    [PUT /items/<id>] pass that exception on and leave the store as it
    was; the body is read before the id is looked up, so this is also
    the answer for an id that is not in the store, not the 404.  The
    request is filed under the code the exception resolves to. *)
Theorem unreadable_body_changes_nothing (req : request) (st : state) (e : exn)
    (item_id : Z) :
  forced_failure req = false ->
  get_json req = Raise e ->
  let created := route_create_item tt req st in
  let updated := route_update_item item_id req st in
  (fst created = Raise e /\
   items (globals (snd created)) = items (globals st) /\
   counted_under req "/items" (resolve 200 (Raise e)) st (snd created)) /\
  (fst updated = Raise e /\
   items (globals (snd updated)) = items (globals st) /\
   counted_under req "/items/<id>" (resolve 200 (Raise e)) st (snd updated)).
Proof.
  intros Hnf Hjson created updated.
  unfold created, updated, counted_under. unfold_route.
  rewrite !wrapped_outcome, !wrapped_globals, !wrapped_requests by assumption.
  unfold view_outcome, create_item, update_item. rewrite Hjson. simpl.
  rewrite at_start_items. repeat split; reflexivity.
Qed.

Lemma unreadable_body_changes_nothing_witness :
  let req := mkRequest "PUT" [] (Raise (abort_exception 415)) in
  fst (route_update_item 9 req (initial 0)) = Raise (abort_exception 415) /\
  counted_under req "/items/<id>" 415 (initial 0)
    (snd (route_update_item 9 req (initial 0))).
Proof.
  cbv zeta.
  destruct (unreadable_body_changes_nothing
              (mkRequest "PUT" [] (Raise (abort_exception 415))) (initial 0)
              (abort_exception 415) 9 eq_refl eq_refl)
    as (_ & Hraise & _ & Hcount).
  split; [exact Hraise | exact Hcount].
Defined.

Lemma find_app_last (p : item -> bool) (l : list item) (x : item) :
  find p (l ++ [x])%list =
  match find p l with
  | Some y => Some y
  | None => if p x then Some x else None
  end.
Proof.
  induction l as [|y l IH]; simpl; [reflexivity|].
  destruct (p y); [reflexivity | exact IH].
Qed.

Lemma get_item_outcome (item_id : Z) (req : request) (st : state) :
  forced_failure req = false ->
  fst (route_get_item item_id req st) =
  match find (fun it => id it =? item_id) (items (globals st)) with
  | Some it => Return (jsonify (item_json it))
  | None => Raise (abort_exception 404)
  end.
Proof.
  intros Hnf. unfold_route. rewrite wrapped_outcome by assumption.
  unfold view_outcome, get_item. rewrite at_start_items.
  now destruct (find _ _).
Qed.

(** X13.  Creating an entry never changes what [GET /items/<id>] answers
    for an id the store already holds, the new entry's own id included:
    [create_item] numbers by length, so when that number is taken the
    older entry keeps answering.  When the number is free, the new entry
    is what its id fetches. *)
Theorem get_after_create (req req' : request) (st : state) (j : json)
    (item_id : Z) :
  forced_failure req = false ->
  forced_failure req' = false ->
  get_json req = Return j ->
  let st1 := snd (route_create_item tt req st) in
  let n := Z.of_nat (List.length (items (globals st))) + 1 in
  (has_id item_id (items (globals st)) = true ->
   fst (route_get_item item_id req' st1) = fst (route_get_item item_id req' st)) /\
  (has_id n (items (globals st)) = false ->
   fst (route_get_item n req' st1)
   = Return (jsonify (item_json (mkItem n (or_empty j))))).
Proof.
  intros Hnf Hnf' Hjson st1 n.
  assert (Hitems : items (globals st1)
                   = (items (globals st) ++ [mkItem n (or_empty j)])%list).
  { unfold st1. unfold_route. rewrite wrapped_globals by assumption.
    now rewrite (create_item_at_start req st j Hjson). }
  rewrite !get_item_outcome by assumption. rewrite Hitems, !find_app_last.
  split.
  - intros Hhas. destruct (find_has_id_true _ _ Hhas) as (it & -> & _).
    reflexivity.
  - intros Hfree. apply find_has_id in Hfree. rewrite Hfree. simpl.
    now rewrite Z.eqb_refl.
Qed.

Lemma get_after_create_witness :
  fst (route_get_item 1 (GET [])
         (snd (route_create_item tt (POST (JStr "a")) (initial 0))))
  = Return (jsonify (item_json (mkItem 1 (JStr "a")))).
Proof.
  exact (proj2 (get_after_create (POST (JStr "a")) (GET []) (initial 0)
                  (JStr "a") 1 eq_refl eq_refl eq_refl) eq_refl).
Defined.

Lemma wrapped_items {K} (route : string) (f : view K) (kwargs : K)
    (req : request) (st : state) :
  items (globals (snd (wrapped route f kwargs req st))) =
  if forced_failure req then items (globals st)
  else items (snd (f kwargs req (globals (at_start req st)))).
Proof.
  destruct (forced_failure req) eqn:Hf.
  - rewrite wrapped_short_circuit by assumption. apply at_start_items.
  - now rewrite wrapped_globals.
Qed.

Lemma set_data_ids (item_id : Z) (d : json) (l : list item) :
  map id (set_data item_id d l) = map id l.
Proof.
  induction l as [|it l IH]; simpl; [reflexivity|].
  destruct (id it =? item_id); simpl; [reflexivity | now rewrite IH].
Qed.

Lemma sequential_same_ids (l l' : list item) :
  map id l' = map id l -> sequential l -> sequential l'.
Proof.
  unfold sequential. intros Hids Hseq.
  assert (Hlen : List.length l' = List.length l).
  { rewrite <- (length_map id l'), Hids. apply length_map. }
  now rewrite Hids, Hlen.
Qed.

Lemma sequential_append (l : list item) (d : json) :
  sequential l ->
  sequential (l ++ [mkItem (Z.of_nat (List.length l) + 1) d])%list.
Proof.
  unfold sequential. intros Hseq.
  rewrite map_app, length_app, Hseq. simpl.
  rewrite Nat.add_1_r, seq_S, map_app. simpl.
  do 2 f_equal. lia.
Qed.

(** X14.  The store keeps its numbering under every route but the
    delete route: if the ids are 1..n in order, they still are (with the
    new length) after [GET /items], [POST /items], [GET /items/<id>] and
    [PUT /items/<id>], whatever the request carries. *)
Theorem numbering_kept (req : request) (st : state) (item_id : Z) :
  sequential (items (globals st)) ->
  sequential (items (globals (snd (route_list_items tt req st)))) /\
  sequential (items (globals (snd (route_create_item tt req st)))) /\
  sequential (items (globals (snd (route_get_item item_id req st)))) /\
  sequential (items (globals (snd (route_update_item item_id req st)))).
Proof.
  intros Hseq. unfold_route. rewrite !wrapped_items.
  destruct (forced_failure req); [now repeat split|].
  unfold list_items, create_item, get_item, update_item.
  repeat split.
  - simpl. now rewrite at_start_items.
  - destruct (get_json req); simpl; rewrite at_start_items;
      [now apply sequential_append | exact Hseq].
  - destruct (find _ _); simpl; now rewrite at_start_items.
  - destruct (get_json req); simpl; [|now rewrite at_start_items].
    destruct (find _ _); simpl; rewrite at_start_items; [|exact Hseq].
    apply (sequential_same_ids (items (globals st))); [|exact Hseq].
    apply set_data_ids.
Qed.

Lemma numbering_kept_witness :
  sequential (items (globals (snd (route_create_item tt (POST JNull)
                                     (mkState (mkWorld [mkItem 1 JNull] 0) no_metrics))))).
Proof.
  refine (proj1 (proj2 (numbering_kept (POST JNull)
                          (mkState (mkWorld [mkItem 1 JNull] 0) no_metrics) 0 _))).
  reflexivity.
Defined.

Lemma find_in_numbered (l : list item) :
  forall s, map id l = map Z.of_nat (seq s (List.length l)) ->
  forall i,
  find (fun it => id it =? i) l =
  if (Z.of_nat s <=? i) && (i <? Z.of_nat (s + List.length l))
  then nth_error l (Z.to_nat i - s) else None.
Proof.
  induction l as [|it l IH]; intros s Hids i; simpl in *.
  - destruct (Z.leb_spec (Z.of_nat s) i);
      destruct (Z.ltb_spec i (Z.of_nat (s + 0))); simpl; try reflexivity; lia.
  - injection Hids as Hid Hrest. rewrite (IH (S s) Hrest i). rewrite Hid.
    destruct (Z.eqb_spec (Z.of_nat s) i) as [<-|Hne].
    + replace (Z.of_nat s <=? Z.of_nat s) with true
        by (symmetry; apply Z.leb_le; lia).
      replace (Z.of_nat s <? Z.of_nat (s + S (List.length l))) with true
        by (symmetry; apply Z.ltb_lt; lia).
      simpl. rewrite Nat2Z.id, Nat.sub_diag. reflexivity.
    + destruct (Z.leb_spec (Z.of_nat s) i) as [Hle|Hlt];
        destruct (Z.ltb_spec i (Z.of_nat (s + S (List.length l)))) as [Hlt'|Hge];
        destruct (Z.leb_spec (Z.of_nat (S s)) i);
        destruct (Z.ltb_spec i (Z.of_nat (S s + List.length l))); simpl;
        try lia; try reflexivity.
      replace (Z.to_nat i - s)%nat with (S (Z.to_nat i - S s)) by lia.
      reflexivity.
Qed.

(** X15.  In a store numbered 1..n, [GET /items/<id>] answers with the
    entry at position [id] for every id from 1 to n, and with the 404
    error for every other id. *)
Theorem lookup_by_position (req : request) (st : state) (i : Z) :
  forced_failure req = false ->
  sequential (items (globals st)) ->
  let n := Z.of_nat (List.length (items (globals st))) in
  (1 <= i <= n ->
   exists it, nth_error (items (globals st)) (Z.to_nat (i - 1)) = Some it /\
              id it = i /\
              fst (route_get_item i req st) = Return (jsonify (item_json it))) /\
  (i < 1 \/ n < i ->
   fst (route_get_item i req st) = Raise (abort_exception 404)).
Proof.
  intros Hnf Hseq n. rewrite get_item_outcome by assumption.
  rewrite (find_in_numbered _ 1%nat Hseq i). fold n.
  split.
  - intros Hrange.
    replace (Z.of_nat 1 <=? i) with true by (symmetry; apply Z.leb_le; lia).
    replace (i <? Z.of_nat (1 + List.length (items (globals st)))) with true
      by (symmetry; apply Z.ltb_lt; lia).
    simpl.
    replace (Z.to_nat i - 1)%nat with (Z.to_nat (i - 1)) by lia.
    destruct (nth_error (items (globals st)) (Z.to_nat (i - 1))) as [it|] eqn:Hnth.
    + exists it. repeat split.
      assert (Hid : nth_error (map id (items (globals st))) (Z.to_nat (i - 1))
                    = Some (id it)) by now apply map_nth_error.
      rewrite Hseq in Hid.
      rewrite nth_error_map, nth_error_seq in Hid.
      destruct (Nat.ltb_spec (Z.to_nat (i - 1)) (List.length (items (globals st))));
        simpl in Hid; [|discriminate].
      injection Hid as <-. lia.
    + apply nth_error_None in Hnth. lia.
  - intros Hout.
    destruct (Z.leb_spec (Z.of_nat 1) i);
      destruct (Z.ltb_spec i (Z.of_nat (1 + List.length (items (globals st)))));
      simpl; try reflexivity; lia.
Qed.

Lemma lookup_by_position_witness :
  exists it, nth_error [mkItem 1 JNull; mkItem 2 (JStr "b")] (Z.to_nat (2 - 1)) = Some it /\
             id it = 2 /\
             fst (route_get_item 2 (GET [])
                    (mkState (mkWorld [mkItem 1 JNull; mkItem 2 (JStr "b")] 0) no_metrics))
             = Return (jsonify (item_json it)).
Proof.
  apply (proj1 (lookup_by_position (GET [])
                  (mkState (mkWorld [mkItem 1 JNull; mkItem 2 (JStr "b")] 0) no_metrics)
                  2 eq_refl eq_refl)).
  simpl. lia.
Defined.

Lemma filter_absent (item_id : Z) (l : list item) :
  has_id item_id l = false ->
  List.filter (fun x => negb (id x =? item_id)) l = l.
Proof.
  unfold has_id. induction l as [|it l IH]; simpl; [reflexivity|].
  destruct (id it =? item_id); simpl; [discriminate|].
  intros Hrest. now rewrite IH.
Qed.

Lemma has_id_filtered (item_id : Z) (l : list item) :
  has_id item_id (List.filter (fun x => negb (id x =? item_id)) l) = false.
Proof.
  unfold has_id. induction l as [|it l IH]; simpl; [reflexivity|].
  destruct (id it =? item_id) eqn:Hid; simpl; [exact IH|].
  now rewrite Hid.
Qed.

Lemma delete_route_items (req : request) (st : state) (item_id : Z) :
  forced_failure req = false ->
  items (globals (snd (route_delete_item item_id req st)))
  = List.filter (fun x => negb (id x =? item_id)) (items (globals st)).
Proof.
  intros Hnf. unfold_route. rewrite wrapped_items, Hnf.
  unfold delete_item. rewrite at_start_items.
  destruct (find _ _) eqn:Hfind; simpl; [reflexivity|].
  rewrite at_start_items. symmetry. apply filter_absent.
  now apply find_has_id.
Qed.

(** X16.  [DELETE /items/<id>] removes every entry with that id, not
    only the first, and keeps the others in their order; it answers 204
    when there was one and the 404 error, with the store untouched, when
    there was none.  Either way a later [GET] of the id gets the 404. *)
Theorem delete_removes_every_match (req req' : request) (st : state)
    (item_id : Z) :
  forced_failure req = false ->
  let run := route_delete_item item_id req st in
  items (globals (snd run))
  = List.filter (fun x => negb (id x =? item_id)) (items (globals st)) /\
  (has_id item_id (items (globals st)) = true ->
   fst run = Return (PyTuple [PyStr ""; PyInt 204]) /\
   counted_under req "/items/<id>" 204 st (snd run)) /\
  (has_id item_id (items (globals st)) = false ->
   fst run = Raise (abort_exception 404) /\
   items (globals (snd run)) = items (globals st) /\
   counted_under req "/items/<id>" 404 st (snd run)) /\
  (forced_failure req' = false ->
   fst (route_get_item item_id req' (snd run)) = Raise (abort_exception 404)).
Proof.
  intros Hnf run.
  assert (Hitems : items (globals (snd run))
                   = List.filter (fun x => negb (id x =? item_id))
                       (items (globals st))).
  { now apply delete_route_items. }
  assert (Hget : forced_failure req' = false ->
                 fst (route_get_item item_id req' (snd run))
                 = Raise (abort_exception 404)).
  { intros Hnf'. rewrite get_item_outcome by assumption. rewrite Hitems.
    pose proof (has_id_filtered item_id (items (globals st))) as Hgone.
    apply find_has_id in Hgone. now rewrite Hgone. }
  assert (Hsame : has_id item_id (items (globals st)) = false ->
                  items (globals (snd run)) = items (globals st)).
  { intros Hno. rewrite Hitems. now apply filter_absent. }
  split; [exact Hitems|].
  split; [|split; [|exact Hget]].
  - intros Hhas. clear Hget Hsame Hitems.
    unfold run, counted_under. unfold_route.
    rewrite wrapped_outcome, wrapped_requests by assumption.
    unfold view_outcome, delete_item. rewrite at_start_items.
    destruct (find_has_id_true _ _ Hhas) as (it & -> & _).
    split; reflexivity.
  - intros Hno. split; [|split; [now apply Hsame|]]; clear Hget Hsame Hitems;
      unfold run, counted_under; unfold_route;
      rewrite ?wrapped_outcome, ?wrapped_requests by assumption;
      unfold view_outcome, delete_item; rewrite at_start_items;
      apply find_has_id in Hno; now rewrite Hno.
Qed.

Lemma delete_removes_every_match_witness :
  let st := mkState (mkWorld [mkItem 2 JNull; mkItem 1 JNull; mkItem 2 (JStr "b")] 0)
                    no_metrics in
  items (globals (snd (route_delete_item 2 DELETE st))) = [mkItem 1 JNull] /\
  fst (route_get_item 2 (GET []) (snd (route_delete_item 2 DELETE st)))
  = Raise (abort_exception 404).
Proof.
  cbv zeta.
  destruct (delete_removes_every_match DELETE (GET [])
              (mkState (mkWorld [mkItem 2 JNull; mkItem 1 JNull; mkItem 2 (JStr "b")] 0)
                       no_metrics) 2 eq_refl)
    as (Hitems & _ & _ & Hget).
  split; [exact Hitems | exact (Hget eq_refl)].
Defined.

Lemma set_data_first (item_id : Z) (d : json) (l : list item) :
  has_id item_id l = true ->
  exists l1 it l2,
    l = (l1 ++ it :: l2)%list /\ has_id item_id l1 = false /\ id it = item_id /\
    find (fun x => id x =? item_id) l = Some it /\
    set_data item_id d l = (l1 ++ mkItem item_id d :: l2)%list.
Proof.
  unfold has_id. induction l as [|x l IH]; simpl; [discriminate|].
  destruct (Z.eqb_spec (id x) item_id) as [Hid|Hne]; simpl.
  - intros _. exists [], x, l. simpl. rewrite Hid. repeat split; reflexivity.
  - intros Hrest. destruct (IH Hrest) as (l1 & it & l2 & -> & Hl1 & Hit & Hfind & Hset).
    exists (x :: l1), it, l2. simpl.
    destruct (Z.eqb_spec (id x) item_id); [contradiction|]. simpl.
    repeat split; try assumption. now rewrite Hset.
Qed.

(** X17.  [PUT /items/<id>] with a readable body replaces the data of
    the first entry with that id by the body (or by [{}] when the body is
    falsy) and changes nothing else: entries before and after it, later
    entries with the same id included, stay as they are.  It answers with
    the changed entry, filed under 200, and a later [GET] of the id gets
    the changed entry.  For an id the store does not hold it answers the
    404 error and leaves the store alone. *)
Theorem update_changes_first_match (req req' : request) (st : state) (j : json)
    (item_id : Z) :
  forced_failure req = false ->
  get_json req = Return j ->
  let run := route_update_item item_id req st in
  let changed := mkItem item_id (or_empty j) in
  (has_id item_id (items (globals st)) = true ->
   exists l1 it l2,
     items (globals st) = (l1 ++ it :: l2)%list /\
     has_id item_id l1 = false /\ id it = item_id /\
     items (globals (snd run)) = (l1 ++ changed :: l2)%list /\
     fst run = Return (jsonify (item_json changed)) /\
     counted_under req "/items/<id>" 200 st (snd run) /\
     (forced_failure req' = false ->
      fst (route_get_item item_id req' (snd run))
      = Return (jsonify (item_json changed)))) /\
  (has_id item_id (items (globals st)) = false ->
   fst run = Raise (abort_exception 404) /\
   items (globals (snd run)) = items (globals st)).
Proof.
  intros Hnf Hjson run changed. split.
  - intros Hhas.
    destruct (set_data_first item_id (or_empty j) _ Hhas)
      as (l1 & it & l2 & Hl & Hl1 & Hit & Hfind & Hset).
    assert (Hitems : items (globals (snd run)) = (l1 ++ changed :: l2)%list).
    { unfold run. unfold_route. rewrite wrapped_items, Hnf.
      unfold update_item. rewrite Hjson, at_start_items, Hfind. simpl.
      fold (or_empty j). exact Hset. }
    exists l1, it, l2.
    split; [exact Hl|]. split; [exact Hl1|]. split; [exact Hit|].
    split; [exact Hitems|]. split; [|split].
    + unfold run. unfold_route. rewrite wrapped_outcome by assumption.
      unfold view_outcome, update_item. rewrite Hjson, at_start_items, Hfind.
      simpl. fold (or_empty j). now rewrite Hit.
    + unfold run, counted_under. unfold_route.
      rewrite wrapped_requests by assumption.
      unfold view_outcome, update_item. rewrite Hjson, at_start_items, Hfind.
      reflexivity.
    + intros Hnf'. rewrite get_item_outcome by assumption. rewrite Hitems.
      assert (Hfound : find (fun x => id x =? item_id) (l1 ++ changed :: l2)%list
                       = Some changed).
      { clear -Hl1. unfold has_id in Hl1.
        induction l1 as [|x l1 IH]; simpl in *.
        - now rewrite Z.eqb_refl.
        - destruct (id x =? item_id); simpl in *; [discriminate | now apply IH]. }
      now rewrite Hfound.
  - intros Hno. apply find_has_id in Hno.
    unfold run. unfold_route. rewrite wrapped_outcome, wrapped_items, Hnf by assumption.
    unfold view_outcome, update_item. rewrite Hjson, at_start_items, Hno. simpl.
    rewrite at_start_items. split; reflexivity.
Qed.

Lemma update_changes_first_match_witness :
  let st := mkState (mkWorld [mkItem 2 JNull; mkItem 2 (JStr "b")] 0) no_metrics in
  items (globals (snd (route_update_item 2 (PUT (JStr "new")) st)))
  = [mkItem 2 (JStr "new"); mkItem 2 (JStr "b")].
Proof.
  cbv zeta.
  destruct (proj1 (update_changes_first_match (PUT (JStr "new")) (GET [])
                     (mkState (mkWorld [mkItem 2 JNull; mkItem 2 (JStr "b")] 0) no_metrics)
                     (JStr "new") 2 eq_refl eq_refl) eq_refl)
    as (l1 & it & l2 & Hl & Hl1 & _ & Hitems & _).
  destruct l1 as [|x l1]; simpl in Hl; injection Hl as Hx Hrest.
  - subst. exact Hitems.
  - subst x. discriminate Hl1.
Defined.

Lemma count_in_numbered (l : list item) (z : Z) :
  forall s, map id l = map Z.of_nat (seq s (List.length l)) ->
  List.length (List.filter (fun it => id it =? z) l) =
  if (Z.of_nat s <=? z) && (z <? Z.of_nat (s + List.length l)) then 1%nat else 0%nat.
Proof.
  induction l as [|it l IH]; intros s Hids; simpl in *.
  - destruct (Z.leb_spec (Z.of_nat s) z);
      destruct (Z.ltb_spec z (Z.of_nat (s + 0))); simpl; try reflexivity; lia.
  - injection Hids as Hid Hrest. specialize (IH (S s) Hrest). rewrite Hid.
    destruct (Z.leb_spec (Z.of_nat (S s)) z);
      destruct (Z.ltb_spec z (Z.of_nat (S s + List.length l)));
      destruct (Z.leb_spec (Z.of_nat s) z);
      destruct (Z.ltb_spec z (Z.of_nat (s + S (List.length l))));
      destruct (Z.eqb_spec (Z.of_nat s) z); simpl; rewrite ?IH;
      simpl; try reflexivity; lia.
Qed.

Lemma filter_split_length (p : item -> bool) (l : list item) :
  (List.length (List.filter p l)
   + List.length (List.filter (fun x => negb (p x)) l))%nat = List.length l.
Proof.
  induction l as [|x l IH]; simpl; [reflexivity|].
  destruct (p x); simpl; lia.
Qed.

Lemma filter_other_id (z i : Z) (l : list item) :
  z <> i ->
  List.filter (fun it => id it =? z) (List.filter (fun x => negb (id x =? i)) l)
  = List.filter (fun it => id it =? z) l.
Proof.
  intros Hne. induction l as [|x l IH]; simpl; [reflexivity|].
  destruct (Z.eqb_spec (id x) i) as [Hi|Hi]; simpl.
  - destruct (Z.eqb_spec (id x) z); [congruence | exact IH].
  - destruct (id x =? z); [now rewrite IH | exact IH].
Qed.

(** X18.  Ids are not unique once an entry has been deleted: in a
    store numbered 1..n, deleting any entry but the last and then
    creating one gives the new entry the id n, which the last entry
    still has, so that two entries carry it. *)
Theorem id_reused_after_delete (req req' : request) (st : state) (j : json)
    (i : Z) :
  forced_failure req = false ->
  forced_failure req' = false ->
  get_json req' = Return j ->
  sequential (items (globals st)) ->
  let n := Z.of_nat (List.length (items (globals st))) in
  1 <= i < n ->
  let st1 := snd (route_delete_item i req st) in
  let st2 := snd (route_create_item tt req' st1) in
  items (globals st2) = (items (globals st1) ++ [mkItem n (or_empty j)])%list /\
  List.length (List.filter (fun it => id it =? n) (items (globals st2))) = 2%nat.
Proof.
  intros Hnf Hnf' Hjson Hseq n Hi st1 st2.
  assert (Hst1 : items (globals st1)
                 = List.filter (fun x => negb (id x =? i)) (items (globals st)))
    by now apply delete_route_items.
  assert (Hone : forall z, 1 <= z <= n ->
            List.length (List.filter (fun it => id it =? z) (items (globals st))) = 1%nat).
  { intros z Hz. rewrite (count_in_numbered _ z 1%nat Hseq). fold n.
    destruct (Z.leb_spec (Z.of_nat 1) z);
      destruct (Z.ltb_spec z (Z.of_nat (1 + List.length (items (globals st)))));
      simpl; try reflexivity; lia. }
  assert (Hlen : Z.of_nat (List.length (items (globals st1))) + 1 = n).
  { rewrite Hst1.
    pose proof (filter_split_length (fun x => id x =? i) (items (globals st))) as Hsplit.
    rewrite (Hone i) in Hsplit by lia. unfold n. lia. }
  assert (Hst2 : items (globals st2)
                 = (items (globals st1) ++ [mkItem n (or_empty j)])%list).
  { unfold st2. unfold_route. rewrite wrapped_items, Hnf'.
    rewrite (create_item_at_start req' st1 j Hjson). simpl. now rewrite Hlen. }
  split; [exact Hst2|].
  rewrite Hst2, List.filter_app, length_app. simpl. rewrite Z.eqb_refl. simpl.
  rewrite Hst1, filter_other_id by lia. rewrite (Hone n) by lia. reflexivity.
Qed.

Lemma id_reused_after_delete_witness :
  let st := mkState (mkWorld [mkItem 1 JNull; mkItem 2 (JStr "b")] 0) no_metrics in
  List.length
    (List.filter (fun it => id it =? 2)
       (items (globals (snd (route_create_item tt (POST (JStr "c"))
                               (snd (route_delete_item 1 DELETE st)))))))
  = 2%nat.
Proof.
  cbv zeta.
  refine (proj2 (id_reused_after_delete DELETE (POST (JStr "c"))
                   (mkState (mkWorld [mkItem 1 JNull; mkItem 2 (JStr "b")] 0) no_metrics)
                   (JStr "c") 1 eq_refl eq_refl eq_refl eq_refl _)).
  simpl. lia.
Defined.

(** X19.  [GET /items] answers with every entry of the store, in store
    order, with status 200; it is filed under 200, counts no error and
    leaves the store as it was.  Right after a [POST /items] with a
    readable body the list is the former one followed by the new
    entry. *)
Theorem list_shows_the_store (req req' : request) (st : state) (j : json) :
  forced_failure req = false ->
  let run := route_list_items tt req st in
  fst run = Return (jsonify (JList (map item_json (items (globals st))))) /\
  items (globals (snd run)) = items (globals st) /\
  counted_under req "/items" 200 st (snd run) /\
  HTTP_ERRORS (registry (snd run)) = HTTP_ERRORS (registry st) /\
  (forced_failure req' = false -> get_json req' = Return j ->
   fst (route_list_items tt req (snd (route_create_item tt req' st)))
   = Return (jsonify (JList
       (map item_json (items (globals st))
        ++ [item_json (mkItem (Z.of_nat (List.length (items (globals st))) + 1)
                              (or_empty j))])%list))).
Proof.
  intros Hnf run. unfold run, counted_under. unfold_route.
  rewrite !wrapped_outcome, wrapped_items, wrapped_requests, wrapped_errors, Hnf
    by assumption.
  unfold view_outcome, list_items. simpl. rewrite !at_start_items.
  repeat split.
  intros Hnf' Hjson. rewrite wrapped_items, Hnf'.
  rewrite (create_item_at_start req' st j Hjson). simpl.
  now rewrite map_app.
Qed.

Lemma list_shows_the_store_witness :
  fst (route_list_items tt (GET []) (initial 0)) = Return (jsonify (JList [])).
Proof.
  exact (proj1 (list_shows_the_store (GET []) (GET []) (initial 0) JNull eq_refl)).
Defined.
